(** * DGTile VTK export (dgt_vtk.cpp): a shallow embedding and its properties

    The writers of [dgt::vtk] append text to a [std::stringstream].  They are
    embedded as computations over the stream contents that either return,
    throw a C++ exception, or leave the behaviour that C++ defines (signed
    overflow, an index outside an array, a remainder by zero). *)

From Stdlib Require Import ZArith NArith List String Ascii Lia Bool.
From Stdlib Require Import SpecFloat DecimalString.
From Stdlib.Strings Require Import Byte.
Import ListNotations.

Local Open Scope string_scope.
Local Open Scope Z_scope.

(* ================================================================= *)
(** ** Machine integers *)

Definition INT_MIN : Z := - 2 ^ 31.
Definition INT_MAX : Z := 2 ^ 31 - 1.

(** [int] is a 32-bit signed integer held as a [Z]. *)
Definition int := Z.

Definition in_int (v : Z) : bool := (INT_MIN <=? v) && (v <=? INT_MAX).

(** Conversion of an unsigned size to [int]: reduction modulo 2^32 into the
    signed range, as in [int const nleaves = leaves.size()]. *)
Definition int_of_size (v : Z) : int := (v + 2 ^ 31) mod 2 ^ 32 - 2 ^ 31.

(** [std::uint64_t] arithmetic wraps modulo 2^64. *)
Definition u64 (v : Z) : Z := v mod 2 ^ 64.

(* ================================================================= *)
(** ** Outcomes of a C++ computation over a state [S] *)

(** The exceptions of the embedding: [std::runtime_error] with its message,
    the one class that the writers throw; a function taken as a parameter
    raises through it as well.  An allocation that fails ([std::bad_alloc])
    is outside the embedding. *)
Inductive exn : Type :=
| runtime_error (what : string).

Inductive res (S A : Type) : Type :=
| Ret (a : A) (s : S)        (* normal return, with the final state *)
| Throw (e : exn) (s : S)    (* exception, with the state when it was thrown *)
| Undef.                     (* behaviour that C++ leaves undefined *)

Arguments Ret {S A} a s.
Arguments Throw {S A} e s.
Arguments Undef {S A}.

Definition M (S A : Type) : Type := S -> res S A.

Definition ret {S A} (a : A) : M S A := fun s => Ret a s.

Definition bind {S A B} (m : M S A) (k : A -> M S B) : M S B :=
  fun s =>
    match m s with
    | Ret a s' => k a s'
    | Throw e s' => Throw e s'
    | Undef => Undef
    end.

Definition throw {S A} (e : exn) : M S A := fun s => Throw e s.

Definition undef {S A} : M S A := fun _ => Undef.

Declare Scope cxx_scope.
Delimit Scope cxx_scope with cxx.
Notation "x <- c ;; k" := (bind c (fun x => k))
  (at level 61, c at next level, right associativity) : cxx_scope.
Notation "c ;; k" := (bind c (fun _ => k))
  (at level 61, right associativity) : cxx_scope.
Local Open Scope cxx_scope.

(** An optional value whose absence is undefined behaviour. *)
Definition defined {S A} (o : option A) : M S A :=
  match o with
  | Some a => ret a
  | None => undef
  end.

(** Signed arithmetic: a result outside [int] is undefined. *)
Definition int_val {S} (v : Z) : M S int :=
  if in_int v then ret v else undef.

Definition int_add {S} (a b : int) : M S int := int_val (a + b).
Definition int_mul {S} (a b : int) : M S int := int_val (a * b).

(** [a % b] truncates toward zero; [b = 0] and [INT_MIN % -1] are undefined. *)
Definition int_rem {S} (a b : int) : M S int :=
  if (b =? 0) || ((a =? INT_MIN) && (b =? -1)) then undef
  else ret (Z.rem a b).

(** [for (int i = 0; i < n; ++i) body], threading the local variables [a]. *)
Fixpoint for_from {S A} (k : nat) (i : int) (body : int -> A -> M S A) (a : A)
  : M S A :=
  match k with
  | O => ret a
  | Datatypes.S k' => a' <- body i a ;; for_from k' (i + 1) body a'
  end.

Definition for_lt {S A} (n : int) (body : int -> A -> M S A) (a : A) : M S A :=
  for_from (Z.to_nat n) 0 body a.

(** [for (x : xs) body], threading the local variables [a]. *)
Fixpoint for_each {S A X} (xs : list X) (body : X -> A -> M S A) (a : A)
  : M S A :=
  match xs with
  | [] => ret a
  | x :: xs' => a' <- body x a ;; for_each xs' body a'
  end.

(* ================================================================= *)
(** ** The output stream *)

Definition stream := string.

(** [stream << text] and [stream.write(text.data(), text.length())]. *)
Definition put (text : string) : M stream unit :=
  fun out => Ret tt (out ++ text).

(** [std::to_string(i)] and [stream << i] for an [int]: decimal digits. *)
Definition to_string (i : int) : string :=
  NilZero.string_of_int (Z.to_int i).

Definition put_int (i : int) : M stream unit := put (to_string i).

Definition newline : string := String (ascii_of_nat 10) "".
Definition quote : string := String (ascii_of_nat 34) "".

(* ================================================================= *)
(** ** Bytes *)

Definition byte_of_N (n : N) : byte :=
  match Byte.of_N (n mod 256) with
  | Some b => b
  | None => x00
  end.

(** The [k] low bytes of [n], least significant first. *)
Fixpoint le_bytes (k : nat) (n : N) : list byte :=
  match k with
  | O => []
  | Datatypes.S k' => byte_of_N n :: le_bytes k' (n / 256)
  end.

(** The number that a little-endian byte sequence denotes. *)
Fixpoint le_value (bs : list byte) : N :=
  match bs with
  | [] => 0%N
  | b :: bs' => (Byte.to_N b + 256 * le_value bs')%N
  end.

(* ================================================================= *)
(** ** Floating point

    [double] is IEEE 754 binary64 and [float] is binary32, with the
    operations of [SpecFloat] (round to nearest, ties to even). *)

Definition double : Type := spec_float.

Inductive float : Type :=
| single (v : spec_float).

Definition single_value (f : float) : spec_float :=
  match f with single v => v end.

Definition dadd : double -> double -> double := SFadd 53 1024.
Definition dmul : double -> double -> double := SFmul 53 1024.
Definition ddiv : double -> double -> double := SFdiv 53 1024.
Definition dneg : double -> double := SFopp.

(** The implicit conversion of an [int] operand to [double] (exact). *)
Definition double_of_int (i : int) : double :=
  binary_normalize 53 1024 i 0 false.

(** The implicit conversion of an assignment of a [double] to a [float]. *)
Definition round_single (v : double) : spec_float :=
  match v with
  | S754_finite s m e => binary_normalize 24 128 (cond_Zopp s (Zpos m)) e s
  | _ => v
  end.

Definition float_of_double (v : double) : float := single (round_single v).

(** The interchange encoding with [mw] fraction bits and [ew] exponent bits. *)
Definition ieee_bits (mw ew : Z) (v : spec_float) : Z :=
  let sign (s : bool) := if s then 2 ^ (mw + ew) else 0 in
  match v with
  | S754_zero s => sign s
  | S754_infinity s => sign s + (2 ^ ew - 1) * 2 ^ mw
  | S754_nan => (2 ^ ew - 1) * 2 ^ mw + 2 ^ (mw - 1)
  | S754_finite s m e =>
      if Zpos m <? 2 ^ mw then sign s + Zpos m
      else sign s + (e + mw + 2 ^ (ew - 1) - 1) * 2 ^ mw + (Zpos m - 2 ^ mw)
  end.

(* ================================================================= *)
(** ** Element types of the arrays ([template <class T>]) *)

Inductive int8_t : Type :=
| int8 (v : Z).

(** What [write_data] needs of [T]: [sizeof(T)], the value a resized view is
    filled with, and the bytes of one element in host memory. *)
Class Scalar (T : Type) : Type := {
  sizeof : Z;
  zero : T;
  raw : T -> list byte
}.

#[export] Instance Scalar_int8_t : Scalar int8_t := {
  sizeof := 1;
  zero := int8 0;
  raw := fun '(int8 v) => le_bytes 1 (Z.to_N (v mod 2 ^ 8))
}.

#[export] Instance Scalar_int : Scalar int := {
  sizeof := 4;
  zero := 0;
  raw := fun v => le_bytes 4 (Z.to_N (v mod 2 ^ 32))
}.

#[export] Instance Scalar_float : Scalar float := {
  sizeof := 4;
  zero := single (S754_zero false);
  raw := fun '(single v) => le_bytes 4 (Z.to_N (ieee_bits 23 8 v))
}.

#[export] Instance Scalar_double : Scalar double := {
  sizeof := 8;
  zero := S754_zero false;
  raw := fun v => le_bytes 8 (Z.to_N (ieee_bits 52 11 v))
}.

(** Every element occupies [sizeof] bytes. *)
Class ScalarLayout (T : Type) `{Scalar T} : Prop :=
  raw_length : forall v : T, Z.of_nat (List.length (raw v)) = sizeof.

(** [vtk_type_name<T>()], specialised for [int], [float] and [double]. *)
Class VtkType (T : Type) : Type := vtk_type_name : string.

#[export] Instance VtkType_int : VtkType int := "Int32".
#[export] Instance VtkType_float : VtkType float := "Float32".
#[export] Instance VtkType_double : VtkType double := "Float64".

(* ================================================================= *)
(** ** Views *)

(** Modelled from the spec: [VizView<T>] is declared in a header that is not
    among the sources.  It is a dual host/device array of rank two whose rows
    are the tuples of the emitted array ("an encoded array's declared component
    count must match the byte layout actually compressed"), so the elements
    are kept row by row; the device copy may be newer than the host copy. *)
Record View (T : Type) : Type := mk_View {
  extent0 : Z;
  extent1 : Z;
  elems : list T
}.

Arguments mk_View {T} extent0 extent1 elems.
Arguments extent0 {T} v.
Arguments extent1 {T} v.
Arguments elems {T} v.

Record VizView (T : Type) : Type := mk_VizView {
  h_view : View T;
  d_view : View T;
  device_newer : bool
}.

Arguments mk_VizView {T} h_view d_view device_newer.
Arguments h_view {T} v.
Arguments d_view {T} v.
Arguments device_newer {T} v.

(** [view.size()] *)
Definition size {T} (v : View T) : Z := extent0 v * extent1 v.

(** The bytes at [view.data()]. *)
Definition data {T} `{Scalar T} (v : View T) : list byte :=
  flat_map raw (elems v).

(** [dual.sync<host_mirror_space>()]: copy the device contents to the host
    when they are newer. *)
Definition sync_host {T} (dual : VizView T) : VizView T :=
  if device_newer dual
  then mk_VizView (d_view dual) (d_view dual) false
  else dual.

(** [VizView<T> v; Kokkos::resize(v, n0, n1)]: a fresh view of [n0] rows of
    [n1] value-initialised elements; a negative extent is not a size. *)
Definition resize {S T} `{Scalar T} (n0 n1 : int) : M S (VizView T) :=
  if (n0 <? 0) || (n1 <? 0) then undef
  else
    let v := mk_View n0 n1 (repeat zero (Z.to_nat (n0 * n1))) in
    ret (mk_VizView v v false).

Fixpoint set_nth {T} (n : nat) (x : T) (l : list T) : list T :=
  match l, n with
  | [], _ => []
  | _ :: l', O => x :: l'
  | y :: l', Datatypes.S n' => y :: set_nth n' x l'
  end.

(** [v.h_view(i, j) = x]; an index outside the extents is undefined. *)
Definition store {S T} (v : VizView T) (i j : int) (x : T) : M S (VizView T) :=
  let h := h_view v in
  if (0 <=? i) && (i <? extent0 h) && (0 <=? j) && (j <? extent1 h)
  then ret (mk_VizView
              (mk_View (extent0 h) (extent1 h)
                 (set_nth (Z.to_nat (i * extent1 h + j)) x (elems h)))
              (d_view v) (device_newer v))
  else undef.

(** A view whose host copy is current and holds [xs] as [n0] rows of [n1]. *)
Definition host_array {T} (n0 n1 : Z) (xs : list T) : VizView T :=
  mk_VizView (mk_View n0 n1 xs)
    (mk_View n0 n1 xs) false.

(* ================================================================= *)
(** ** Base64 *)

Module base64.

Definition alphabet : string :=
  "ABCDEFGHIJKLMNOPQRSTUVWXYZabcdefghijklmnopqrstuvwxyz0123456789+/".

Definition pad : ascii := "="%char.

Definition digit (n : N) : ascii :=
  match String.get (N.to_nat n) alphabet with
  | Some c => c
  | None => pad
  end.

(** Modelled from the spec: [base64::encode] is declared in dgt_file.hpp and
    its body is not among the sources.  The spec asks for the base64 of the
    external format: three bytes become four digits of the standard alphabet,
    and a last group of one or two bytes is padded with [=]. *)
Fixpoint encode (bs : list byte) : string :=
  match bs with
  | [] => ""
  | [a] =>
      let n := (Byte.to_N a * 65536)%N in
      String (digit (n / 262144))
        (String (digit (n / 4096 mod 64)) (String pad (String pad "")))
  | [a; b] =>
      let n := (Byte.to_N a * 65536 + Byte.to_N b * 256)%N in
      String (digit (n / 262144))
        (String (digit (n / 4096 mod 64))
           (String (digit (n / 64 mod 64)) (String pad "")))
  | a :: b :: c :: rest =>
      let n := (Byte.to_N a * 65536 + Byte.to_N b * 256 + Byte.to_N c)%N in
      String (digit (n / 262144))
        (String (digit (n / 4096 mod 64))
           (String (digit (n / 64 mod 64))
              (String (digit (n mod 64)) (encode rest))))
  end.

Fixpoint index_of (c : ascii) (s : string) (i : N) : option N :=
  match s with
  | EmptyString => None
  | String c' s' => if Ascii.eqb c c' then Some i else index_of c s' (i + 1)%N
  end.

Definition value (c : ascii) : option N := index_of c alphabet 0%N.

(** The reader's side, which the sources do not contain: four digits become
    three bytes, and padding is accepted in the last group only. *)
Fixpoint decode (s : string) : option (list byte) :=
  match s with
  | EmptyString => Some []
  | String c0 (String c1 (String c2 (String c3 rest))) =>
      match value c0, value c1 with
      | Some v0, Some v1 =>
          if Ascii.eqb c3 pad then
            match rest with
            | EmptyString =>
                if Ascii.eqb c2 pad
                then Some [byte_of_N ((v0 * 64 + v1) / 16)]
                else
                  match value c2 with
                  | Some v2 =>
                      let n := ((v0 * 4096 + v1 * 64 + v2) / 4)%N in
                      Some [byte_of_N (n / 256); byte_of_N n]
                  | None => None
                  end
            | _ => None
            end
          else
            match value c2, value c3, decode rest with
            | Some v2, Some v3, Some bs =>
                let n := (v0 * 262144 + v1 * 4096 + v2 * 64 + v3)%N in
                Some (byte_of_N (n / 65536) :: byte_of_N (n / 256)
                        :: byte_of_N n :: bs)
            | _, _, _ => None
            end
      | _, _ => None
      end
  | _ => None
  end.

End base64.

(* ================================================================= *)
(** ** The data the writers read *)

(** [p3a::vector3<A>], [p3a::grid3] and [p3a::box3<double>]. *)
Module p3a.

Record vector3 (A : Type) : Type := mk_vector3 { x : A; y : A; z : A }.

Arguments mk_vector3 {A} x y z.
Arguments x {A} v.
Arguments y {A} v.
Arguments z {A} v.

(** [v[axis]]; the components are [0], [1] and [2]. *)
Definition get {S A} (v : vector3 A) (axis : int) : M S A :=
  if axis =? 0 then ret (x v)
  else if axis =? 1 then ret (y v)
  else if axis =? 2 then ret (z v)
  else undef.

(** [k * v] on [vector3<int>]. *)
Definition scale {S} (k : int) (v : vector3 int) : M S (vector3 int) :=
  (nx <- int_mul k (x v) ;;
   ny <- int_mul k (y v) ;;
   nz <- int_mul k (z v) ;;
   ret (mk_vector3 nx ny nz))%cxx.

Definition add (a b : vector3 double) : vector3 double :=
  mk_vector3 (dadd (x a) (x b)) (dadd (y a) (y b)) (dadd (z a) (z b)).

Definition sub (a b : vector3 double) : vector3 double :=
  mk_vector3 (SFsub 53 1024 (x a) (x b)) (SFsub 53 1024 (y a) (y b))
    (SFsub 53 1024 (z a) (z b)).

(** [hadamard_product(a, b)]: the product component by component, the [int]
    components of [b] converted to [double]. *)
Definition hadamard_product (a : vector3 double) (b : vector3 int)
  : vector3 double :=
  mk_vector3 (dmul (x a) (double_of_int (x b)))
    (dmul (y a) (double_of_int (y b)))
    (dmul (z a) (double_of_int (z b))).

Record grid3 : Type := mk_grid3 { extents : vector3 int }.

Record box3 : Type := mk_box3 {
  lower : vector3 double;
  upper : vector3 double
}.

Definition box_extents (b : box3) : vector3 double := sub (upper b) (lower b).

End p3a.

(** Modelled from the spec: [Basis], [Point], [Node], [Block] and [Tree] are
    declared in headers that are not among the sources.  The records hold
    what the writers read through their accessors: the degree, the cell grid,
    the domain box, the spacing, the tree position, the id and the owner of a
    block; the position of a node; the dimension and the base point of a
    tree. *)
Record Basis : Type := mk_Basis { p : int }.

Record Point : Type := mk_Point {
  depth : int;
  ijk : p3a.vector3 int
}.

Record Node : Type := mk_Node { pt : Point }.

Record Block : Type := mk_Block {
  basis : Basis;
  cell_grid : p3a.grid3;
  domain : p3a.box3;
  dx : p3a.vector3 double;
  node : Node;
  id : int;
  owner : int
}.

Record Tree : Type := mk_Tree {
  dim : int;
  base : Point;
  root : Node
}.

(** Modelled from the spec: [DIMS], [X], [Y], [Z] and [max_p] are constants of
    a header that is not among the sources.  [axis_name] has the [DIMS] names
    x, y and z, and the offset table "only covers degrees 0-2". *)
Definition DIMS : int := 3.
Definition X : int := 0.
Definition Y : int := 1.
Definition Z' : int := 2.
Definition max_p : int := 2.

(** [a[i]] on a built-in array; an index outside it is undefined. *)
Definition index {S A} (a : list A) (i : int) : M S A :=
  if i <? 0 then undef else defined (nth_error a (Z.to_nat i)).

(** Modelled from the spec: [ipow] is a helper that is not among the sources;
    "corners-per-cell c = 2^d". *)
Definition ipow {S} (b e : int) : M S int :=
  if e <? 0 then undef else int_val (b ^ e).

(** Files, by path. *)
Definition filesystem : Type := string -> option string.

(** A function body that owns a local [std::stringstream]: [body] runs on an
    empty stream and [k] receives what it holds at the end. *)
Definition with_stream {S A B} (body : M stream A) (k : stream -> M S B)
  : M S B :=
  fun s =>
    match body "" with
    | Ret _ out => k out s
    | Throw e _ => Throw e s
    | Undef => Undef
    end.

(* ================================================================= *)
(** ** The binary array encoder *)

Definition Z_OK : Z := 0.
Definition Z_BEST_SPEED : Z := 1.

(** [q s] is [s] between double quotes, as in [\"s\"] of the sources. *)
Definition q (s : string) : string := quote ++ s ++ quote.

Section Writers.

(** zlib.  [compressBound n] is the capacity asked for [n] source bytes.
    [compress2 capacity source level] stands for
    [::compress2(dest, &destLen, source, sourceLen, level)] with
    [destLen = capacity] on entry: it gives the status and the bytes written
    to [dest], whose number is [destLen] on return. *)
Variable compressBound : Z -> Z.
Variable compress2 : Z -> list byte -> Z -> Z * list byte.

(** The four 64-bit words of the length header, as they lie in memory. *)
Definition header_bytes (header : list Z) : list byte :=
  flat_map (fun w => le_bytes 8 (Z.to_N w)) header.

Definition write_data {T} `{Scalar T} (dual : VizView T) (copy : bool)
  : M stream unit :=
  let dual := if copy then sync_host dual else dual in
  let field := h_view dual in
  let uncompressed_bytes := u64 (sizeof * u64 (size field)) in
  let source_bytes := uncompressed_bytes in
  let dest_bytes := compressBound source_bytes in
  let '(r, compressed) :=
    compress2 dest_bytes (firstn (Z.to_nat source_bytes) (data field))
      Z_BEST_SPEED in
  let dest_bytes := Z.of_nat (List.length compressed) in
  if negb (r =? Z_OK) then throw (runtime_error "vtk - zlib error")
  else
    let encoded := base64.encode compressed in
    let header :=
      [1; uncompressed_bytes; uncompressed_bytes; u64 dest_bytes] in
    let enc_header := base64.encode (header_bytes header) in
    put enc_header ;;
    put encoded ;;
    put newline.

Definition write_data_start (type name : string) (ncomps : int)
  : M stream unit :=
  put "<" ;;
  put ("DataArray type=" ++ q type ++ " ") ;;
  put ("Name=" ++ q name ++ " ") ;;
  put ("NumberOfComponents=" ++ q (to_string ncomps) ++ " ") ;;
  put ("format=" ++ q "binary") ;;
  put (">" ++ newline).

Definition write_data_end : M stream unit :=
  put ("</DataArray>" ++ newline).

Definition write_field {T} `{Scalar T} `{VtkType T}
  (name : string) (f : VizView T) : M stream unit :=
  let ncomps := int_of_size (extent1 (d_view f)) in
  write_data_start (vtk_type_name (T := T)) name ncomps ;;
  write_data f true ;;
  write_data_end.


(* ----------------------------------------------------------------- *)
(** *** The block grid writer *)

(** [stream << time] under [std::scientific << std::setprecision(12)]. *)
Variable scientific12 : double -> string.

Definition write_vtr_header : M stream unit :=
  put ("<VTKFile type=" ++ q "RectilinearGrid" ++ " ") ;;
  put ("version=" ++ q "1.0" ++ " ") ;;
  put ("compressor=" ++ q "vtkZLibDataCompressor" ++ " ") ;;
  put ("header_type=" ++ q "UInt64" ++ ">" ++ newline).

Definition write_vtr_rectilinear_start (block : Block) : M stream unit :=
  let p := p (basis block) in
  let cells := cell_grid block in
  p1 <- int_add p 1 ;;
  n <- p3a.scale p1 (p3a.extents cells) ;;
  put ("<RectilinearGrid WholeExtent=" ++ quote) ;;
  put ("0 " ++ to_string (p3a.x n) ++ " ") ;;
  put ("0 " ++ to_string (p3a.y n) ++ " ") ;;
  put ("0 " ++ to_string (p3a.z n) ++ quote ++ ">" ++ newline).

Definition write_fdata_start (type name : string) (ntuples : int)
  : M stream unit :=
  put "<DataArray " ;;
  put ("type=" ++ q type) ;;
  put (" Name=" ++ q name) ;;
  put (" NumberOfTuples=" ++ q (to_string ntuples)) ;;
  put (" format=" ++ q "ascii") ;;
  put (">" ++ newline).

Definition write_vtr_time (time : double) : M stream unit :=
  write_fdata_start "Float64" "TIME" 1 ;;
  put (scientific12 time ++ newline) ;;
  write_data_end.

Definition write_vtr_step (step : int) : M stream unit :=
  write_fdata_start "Int32" "STEP" 1 ;;
  put (to_string step ++ newline) ;;
  write_data_end.

Definition write_vtr_block_depth (block : Block) : M stream unit :=
  let node := node block in
  let pt := pt node in
  let depth := depth pt in
  write_fdata_start "Int32" "block_depth" 1 ;;
  put (to_string depth ++ newline) ;;
  write_data_end.

Definition write_vtr_block_ijk (block : Block) : M stream unit :=
  let node := node block in
  let pt := pt node in
  let ijk := ijk pt in
  write_fdata_start "Int32" "block_ijk" DIMS ;;
  put (to_string (p3a.x ijk) ++ " " ++ to_string (p3a.y ijk) ++ " "
         ++ to_string (p3a.z ijk) ++ newline) ;;
  write_data_end.

Definition write_vtr_block_id (block : Block) : M stream unit :=
  let id := id block in
  write_fdata_start "Int32" "block_id" 1 ;;
  put (to_string id ++ newline) ;;
  write_data_end.

Definition write_vtr_block_owner (block : Block) : M stream unit :=
  let owner := owner block in
  write_fdata_start "Int32" "block_owner" 1 ;;
  put (to_string owner ++ newline) ;;
  write_data_end.

(** [stream << std::scientific << std::setprecision(12)] puts no character:
    it sets the floating-point format of the stream, which stays set.  The
    format is not part of [stream]; the one floating-point value put on a
    stream is [time], through [scientific12], and integers are put in
    decimal, the format that the writers never change. *)
Definition write_vtr_field_data (block : Block) (time : double) (step : int)
  : M stream unit :=
  put ("<FieldData>" ++ newline) ;;
  write_vtr_time time ;;
  write_vtr_step step ;;
  write_vtr_block_depth block ;;
  write_vtr_block_ijk block ;;
  write_vtr_block_id block ;;
  write_vtr_block_owner block ;;
  put ("</FieldData>" ++ newline).

Definition write_piece_start (block : Block) : M stream unit :=
  let p := p (basis block) in
  let cells := cell_grid block in
  p1 <- int_add p 1 ;;
  n <- p3a.scale p1 (p3a.extents cells) ;;
  put ("<Piece Extent=" ++ quote) ;;
  put ("0 " ++ to_string (p3a.x n) ++ " ") ;;
  put ("0 " ++ to_string (p3a.y n) ++ " ") ;;
  put ("0 " ++ to_string (p3a.z n) ++ quote ++ ">" ++ newline).

(** The literals [0.], [2.] and [9.] and the table of [write_coordinate]:
    [-2./9.] is the quotient of the negated [2.] by [9.]. *)
Definition d0 : double := S754_zero false.
Definition d2 : double := double_of_int 2.
Definition d9 : double := double_of_int 9.

Definition offset : list (list double) :=
  [ [d0; d0; d0];
    [d0; d0; d0];
    [d0; ddiv (dneg d2) d9; ddiv d2 d9] ].

Definition axis_name : list string := ["x"; "y"; "z"].

Definition write_coordinate (block : Block) (axis : int) : M stream unit :=
  let p := p (basis block) in
  p1 <- int_add p 1 ;;
  cells <- p3a.get (p3a.extents (cell_grid block)) axis ;;
  m <- int_mul p1 cells ;;
  num_pts <- int_add m 1 ;;
  o <- p3a.get (p3a.lower (domain block)) axis ;;
  bdx <- p3a.get (dx block) axis ;;
  let dx := ddiv bdx (double_of_int p1) in
  coord <- resize num_pts 1 ;;
  coord <- for_lt num_pts (fun i coord =>
      imod <- int_rem i p1 ;;
      row <- index offset p ;;
      off <- index row imod ;;
      store coord i 0
        (float_of_double
           (dadd (dadd o (dmul (double_of_int i) dx)) (dmul off dx))))
    coord ;;
  name <- index axis_name axis ;;
  write_data_start "Float32" name 1 ;;
  write_data coord false ;;
  write_data_end.

Definition write_coordinates (block : Block) : M stream unit :=
  put ("<Coordinates>" ++ newline) ;;
  write_coordinate block X ;;
  write_coordinate block Y ;;
  write_coordinate block Z' ;;
  put ("</Coordinates>" ++ newline).

Definition write_vtr_start (block : Block) (time : double) (step : int)
  : M stream unit :=
  write_vtr_header ;;
  write_vtr_rectilinear_start block ;;
  write_vtr_field_data block time step ;;
  write_piece_start block ;;
  write_coordinates block ;;
  put ("<CellData>" ++ newline).

Definition write_vtr_end : M stream unit :=
  put ("</CellData>" ++ newline) ;;
  put ("</Piece>" ++ newline) ;;
  put ("</RectilinearGrid>" ++ newline) ;;
  put ("</VTKFile>" ++ newline).

(* ----------------------------------------------------------------- *)
(** *** The manifest writer *)

Definition write_vtm_header : M stream unit :=
  put ("<VTKFile type=" ++ q "vtkMultiBlockDataSet" ++ " ") ;;
  put ("version=" ++ q "1.0" ++ ">" ++ newline) ;;
  put ("<vtkMultiBlockDataSet>" ++ newline).

Definition write_vtm_end : M stream unit :=
  put ("</vtkMultiBlockDataSet>" ++ newline) ;;
  put "</VTKFile>".

Definition write_vtm_source_file (i : int) (file : string) : M stream unit :=
  put ("<DataSet index=" ++ q (to_string i) ++ " ") ;;
  put ("file=" ++ q file ++ "/>" ++ newline).

Definition write_vtm (prefix : string) (nblocks : int) : M stream unit :=
  write_vtm_header ;;
  for_lt nblocks (fun i _ =>
      let file := prefix ++ to_string i ++ ".vtr" in
      write_vtm_source_file i file)
    tt ;;
  write_vtm_end.

(* ----------------------------------------------------------------- *)
(** *** The tree geometry writer *)

(** Leaf traversal and block geometry, from the mesh sources that are not
    among these: [collect_leaves(tree)] and
    [get_block_domain(base, pt, domain)]. *)
Variable collect_leaves : Tree -> list Node.
Variable get_block_domain : Point -> Point -> p3a.box3 -> p3a.box3.

(** [write_stream(path, stream)] is declared in dgt_file.hpp and its body is
    not among the sources: it is given the path and the contents of the
    stream, and acts on the file system; it may return or raise. *)
Variable write_stream : string -> stream -> M filesystem unit.

Definition write_vtu_header : M stream unit :=
  put ("<VTKFile type=" ++ q "UnstructuredGrid" ++ " ") ;;
  put ("header_type=" ++ q "UInt64" ++ " ") ;;
  put ("compressor=" ++ q "vtkZLibDataCompressor" ++ ">" ++ newline).

Definition vtk_types : list int8_t := [int8 1; int8 3; int8 9; int8 12].

Definition write_tree_types (dim num : int) : M stream unit :=
  type <- index vtk_types dim ;;
  types <- resize num 1 ;;
  types <- for_lt num (fun i types => store types i 0 type) types ;;
  write_data_start "Int8" "types" 1 ;;
  write_data types false ;;
  write_data_end.

Definition write_tree_offsets (num nents : int) : M stream unit :=
  let offset := nents in
  offsets <- resize num 1 ;;
  r <- for_lt num (fun i '(offset, offsets) =>
      offsets <- store offsets i 0 offset ;;
      offset <- int_add offset nents ;;
      ret (offset, offsets))
    (offset, offsets) ;;
  let offsets : VizView int := snd r in
  write_data_start "Int32" "offsets" 1 ;;
  write_data offsets false ;;
  write_data_end.

Definition write_tree_connectivity (npoints : int) : M stream unit :=
  connectivity <- resize npoints 1 ;;
  connectivity <- for_lt npoints (fun i connectivity =>
      store connectivity i 0 i)
    connectivity ;;
  write_data_start "Int32" "connectivity" 1 ;;
  write_data (T := int) connectivity false ;;
  write_data_end.

Definition vtk_corners : list (p3a.vector3 int) :=
  [ p3a.mk_vector3 0 0 0;
    p3a.mk_vector3 1 0 0;
    p3a.mk_vector3 1 1 0;
    p3a.mk_vector3 0 1 0;
    p3a.mk_vector3 0 0 1;
    p3a.mk_vector3 1 0 1;
    p3a.mk_vector3 1 1 1;
    p3a.mk_vector3 0 1 1 ].

Definition write_tree_coords (base : Point) (leaves : list Node)
  (domain : p3a.box3) (npoints ncorners : int) : M stream unit :=
  let idx := 0 in
  coords <- resize npoints DIMS ;;
  r <- for_each leaves (fun leaf '(idx, coords) =>
      let pt := pt leaf in
      let box := get_block_domain base pt domain in
      let o := p3a.lower box in
      let dx := p3a.box_extents box in
      for_lt ncorners (fun c '(idx, coords) =>
          corner <- index vtk_corners c ;;
          let x := p3a.add o (p3a.hadamard_product dx corner) in
          coords <- for_lt DIMS (fun axis coords =>
              xa <- p3a.get x axis ;;
              store coords idx axis xa)
            coords ;;
          idx <- int_add idx 1 ;;
          ret (idx, coords))
        (idx, coords))
    (idx, coords) ;;
  let coords : VizView double := snd r in
  write_data_start "Float64" "coordinates" DIMS ;;
  write_data coords false ;;
  write_data_end.

Definition write_leaf_depths (leaves : list Node) : M stream unit :=
  let nleaves := int_of_size (Z.of_nat (List.length leaves)) in
  depths <- resize nleaves 1 ;;
  depths <- for_lt nleaves (fun i depths =>
      leaf <- index leaves i ;;
      store depths i 0 (depth (pt leaf)))
    depths ;;
  write_data_start "Int32" "depth" 1 ;;
  write_data (T := int) depths false ;;
  write_data_end.

Definition write_leaf_ijks (leaves : list Node) : M stream unit :=
  let nleaves := int_of_size (Z.of_nat (List.length leaves)) in
  ijks <- resize nleaves DIMS ;;
  ijks <- for_lt nleaves (fun i ijks =>
      leaf <- index leaves i ;;
      let ijk := ijk (pt leaf) in
      for_lt DIMS (fun axis ijks =>
          a <- p3a.get ijk axis ;;
          store ijks i axis a)
        ijks)
    ijks ;;
  write_data_start "Int32" "ijk" DIMS ;;
  write_data (T := int) ijks false ;;
  write_data_end.

Definition write_tree (path : string) (tree : Tree) (domain : p3a.box3)
  : M filesystem unit :=
  with_stream
    (let leaves := collect_leaves tree in
     let dim := dim tree in
     let nleaves := int_of_size (Z.of_nat (List.length leaves)) in
     ncorners <- ipow 2 dim ;;
     npoints <- int_mul nleaves ncorners ;;
     write_vtu_header ;;
     put ("<UnstructuredGrid>" ++ newline) ;;
     put ("<Piece NumberOfPoints=" ++ q (to_string npoints) ++ " ") ;;
     put ("NumberOfCells=" ++ q (to_string nleaves) ++ ">" ++ newline) ;;
     put ("<Cells>" ++ newline) ;;
     write_tree_types dim nleaves ;;
     write_tree_offsets nleaves ncorners ;;
     write_tree_connectivity npoints ;;
     put ("</Cells>" ++ newline) ;;
     put ("<Points>" ++ newline) ;;
     write_tree_coords (base tree) leaves domain npoints ncorners ;;
     put ("</Points>" ++ newline) ;;
     put ("<CellData>" ++ newline) ;;
     write_leaf_depths leaves ;;
     write_leaf_ijks leaves ;;
     put ("</CellData>" ++ newline) ;;
     put ("<PointData>" ++ newline) ;;
     put ("</PointData>" ++ newline) ;;
     put ("</Piece>" ++ newline) ;;
     put ("</UnstructuredGrid>" ++ newline) ;;
     put ("</VTKFile>" ++ newline))
    (fun stream =>
       let file_path := path ++ ".vtu" in
       write_stream file_path stream).

End Writers.

(* ================================================================= *)
(** ** Vocabulary of the statements *)

(** [0; 1; ...; n-1], the values of a loop counter. *)
Definition iota (n : Z) : list Z := map Z.of_nat (seq 0 (Z.to_nat n)).

(** A view is well formed when it holds as many elements as its extents say. *)
Definition wf_view {T} (v : View T) : Prop :=
  0 <= extent0 v /\ 0 <= extent1 v /\
  Z.of_nat (List.length (elems v)) = extent0 v * extent1 v.

(** One binary [DataArray] element around the encoding of the host array
    of [n0] rows of [n1] elements [xs]. *)
Definition write_array (compressBound : Z -> Z)
  (compress2 : Z -> list byte -> Z -> Z * list byte)
  {T} `{Scalar T} (type name : string) (ncomps : int) (n0 n1 : Z)
  (xs : list T) : M stream unit :=
  write_data_start type name ncomps ;;
  write_data compressBound compress2 (host_array n0 n1 xs) false ;;
  write_data_end.

(** The call of the backend that [write_data] makes for a host view. *)
Definition backend_call (compressBound : Z -> Z)
  (compress2 : Z -> list byte -> Z -> Z * list byte)
  {T} `{Scalar T} (field : View T) : Z * list byte :=
  let source_bytes := u64 (sizeof * u64 (size field)) in
  compress2 (compressBound source_bytes)
    (firstn (Z.to_nat source_bytes) (data field)) Z_BEST_SPEED.

(** The error of the encoder. *)
Definition zlib_error : exn := runtime_error "vtk - zlib error".

(** A computation that never throws. *)
Definition quiet {S A} (m : M S A) : Prop :=
  forall s e s', m s <> Throw e s'.

(** A computation that never returns: it throws [e] or is undefined. *)
Definition aborts {S A} (e : exn) (m : M S A) : Prop :=
  forall s, match m s with
            | Ret _ _ => False
            | Throw e' _ => e' = e
            | Undef => True
            end.

(** [offset[p][i % (p+1)]], the entry of the table that iteration [i] of the
    loop of [write_coordinate] reads. *)
Definition table_entry {S} (p i : int) : M S double :=
  imod <- int_rem i (p + 1) ;;
  row <- index offset p ;;
  index row imod.

(** The table of the specification: no offset for the degrees 0 and 1, and
    the offsets 0, -2/9 and 2/9 for the three nodes of degree 2. *)
Definition offsetTable (p k : Z) : double :=
  if (p =? 2) && (k =? 1) then ddiv (dneg d2) d9
  else if (p =? 2) && (k =? 2) then ddiv d2 d9
  else d0.

(** Point [i] of an axis by the formula of the specification, in [double]
    arithmetic: [o + i*dx + offsetTable[p][i mod (p+1)]*dx] with
    [dx = spacing/(p+1)]. *)
Definition coordinate_formula (p : Z) (o spacing : double) (i : Z) : double :=
  let dx := ddiv spacing (double_of_int (p + 1)) in
  dadd (dadd o (dmul (double_of_int i) dx))
    (dmul (offsetTable p (i mod (p + 1))) dx).

(** Component [axis] of a vector, for an axis that is 0, 1 or 2. *)
Definition component {A} (v : p3a.vector3 A) (axis : Z) : A :=
  if axis =? 0 then p3a.x v else if axis =? 1 then p3a.y v else p3a.z v.

Definition components {A} (v : p3a.vector3 A) : list A :=
  [p3a.x v; p3a.y v; p3a.z v].

(** The [ncorners] corner points of the box of a leaf, each a row of three
    coordinates. *)
Definition leaf_corners (get_block_domain : Point -> Point -> p3a.box3 -> p3a.box3)
  (base : Point) (domain : p3a.box3) (ncorners : Z) (leaf : Node)
  : list (p3a.vector3 double) :=
  let box := get_block_domain base (pt leaf) domain in
  map (fun corner =>
         p3a.add (p3a.lower box)
           (p3a.hadamard_product (p3a.box_extents box) corner))
    (firstn (Z.to_nat ncorners) vtk_corners).

(** Rows [first .. first+count-1] of an array of rows of [width] elements. *)
Definition rows {T} (width first count : nat) (xs : list T) : list T :=
  firstn (count * width) (skipn (first * width) xs).

(* ----------------------------------------------------------------- *)
(** *** The reader's side of the encoding *)

Fixpoint take (n : nat) (s : string) : string :=
  match n, s with
  | Datatypes.S n', String c s' => String c (take n' s')
  | _, _ => ""
  end.

Fixpoint drop (n : nat) (s : string) : string :=
  match n, s with
  | Datatypes.S n', String _ s' => drop n' s'
  | _, _ => s
  end.

(** The number of base64 digits that stand for [n] bytes. *)
Definition encoded_length (n : nat) : nat := (4 * ((n + 2) / 3))%nat.

(** The four 64-bit words of a 32-byte header. *)
Definition header_words (hb : list byte) : list Z :=
  map (fun k => Z.of_N (le_value (firstn 8 (skipn (8 * k) hb))))
    [0; 1; 2; 3]%nat.

(** What a reader of the format does with one encoded array: decode the
    44 digits of the 32-byte header, read its four words, decode as many
    digits as the compressed size asks for, inflate them, and compare the
    sizes with the header.  It gives the header and the bytes. *)
Definition read_data (uncompress : list byte -> option (list byte))
  (text : string) : option (list Z * list byte) :=
  match base64.decode (take 44 text) with
  | Some hb =>
      match header_words hb with
      | [nblocks; blocksize; lastsize; csize] =>
          let digits := encoded_length (Z.to_nat csize) in
          let body := drop 44 text in
          if (List.length hb =? 32)%nat && (nblocks =? 1)
             && String.eqb (drop digits body) newline
          then
            match base64.decode (take digits body) with
            | Some payload =>
                match uncompress payload with
                | Some bytes =>
                    if (Z.of_nat (List.length payload) =? csize)
                       && (Z.of_nat (List.length bytes) =? lastsize)
                    then Some ([nblocks; blocksize; lastsize; csize], bytes)
                    else None
                | None => None
                end
            | None => None
            end
          else None
      | _ => None
      end
  | None => None
  end.

(** A byte buffer as an array of [int8_t]. *)
Definition bytes_view (buf : list byte) : VizView int8_t :=
  host_array (Z.of_nat (List.length buf)) 1
    (map (fun b => int8 (Z.of_N (Byte.to_N b))) buf).

(** The values of the [file] attributes of a manifest, in order: the text is
    cut at every double quote, and a piece that follows a piece ending in
    [ file=] is such a value. *)
Fixpoint fields (s : string) : list string :=
  match s with
  | EmptyString => [""]
  | String c s' =>
      if Ascii.eqb c (ascii_of_nat 34) then "" :: fields s'
      else
        match fields s' with
        | f :: fs => String c f :: fs
        | [] => [String c ""]
        end
  end.

Definition ends_with (suffix s : string) : bool :=
  String.eqb (drop (String.length s - String.length suffix) s) suffix.

Fixpoint attribute_values (name : string) (fs : list string) : list string :=
  match fs with
  | key :: value :: rest =>
      if ends_with (" " ++ name ++ "=") key
      then value :: attribute_values name rest
      else attribute_values name rest
  | _ => []
  end.

Definition file_attributes (s : string) : list string :=
  attribute_values "file" (fields s).

(** All the strings of a list, one after the other. *)
Definition concat_all (l : list string) : string :=
  fold_right String.append "" l.

(* ----------------------------------------------------------------- *)
(** *** A compressor to run the writers with

    A zlib stream that stores its input in one block: the two header bytes,
    a final stored block with its length and the complement of the length,
    and the Adler-32 checksum.  It fails with [Z_BUF_ERROR] when the input
    does not fit one block or the output does not fit the capacity. *)
Module zlib.

Definition Z_BUF_ERROR : Z := -5.
Definition Z_MEM_ERROR : Z := -4.

Definition compressBound (n : Z) : Z :=
  n + Z.shiftr n 12 + Z.shiftr n 14 + Z.shiftr n 25 + 13.

Definition adler32 (bs : list byte) : N :=
  let '(a, b) :=
    fold_left (fun '(a, b) x =>
                 let a' := ((a + Byte.to_N x) mod 65521)%N in
                 (a', ((b + a') mod 65521)%N))
      bs (1%N, 0%N) in
  (b * 65536 + a)%N.

Definition stored (src : list byte) : list byte :=
  let len := N.of_nat (List.length src) in
  ([x78; x01; x01] ++ le_bytes 2 len ++ le_bytes 2 (65535 - len)
     ++ src ++ rev (le_bytes 4 (adler32 src)))%list.

Definition compress2 (capacity : Z) (src : list byte) (level : Z)
  : Z * list byte :=
  let out := stored src in
  if (Z.of_nat (List.length src) <=? 65535)
     && (Z.of_nat (List.length out) <=? capacity)
  then (Z_OK, out)
  else (Z_BUF_ERROR, []).

Definition bytes_eqb (a b : list byte) : bool :=
  (List.length a =? List.length b)%nat
  && forallb (fun '(x, y) => Byte.eqb x y) (combine a b).

Definition uncompress (c : list byte) : option (list byte) :=
  match c with
  | x78 :: x01 :: x01 :: l0 :: l1 :: n0 :: n1 :: rest =>
      let len := le_value [l0; l1] in
      let body := firstn (N.to_nat len) rest in
      if (le_value [n0; n1] =? 65535 - len)%N
         && (N.of_nat (List.length body) =? len)%N
         && bytes_eqb (skipn (N.to_nat len) rest)
              (rev (le_bytes 4 (adler32 body)))
      then Some body
      else None
  | _ => None
  end.

(** A backend that is out of memory. *)
Definition failing_compress2 (capacity : Z) (src : list byte) (level : Z)
  : Z * list byte :=
  (Z_MEM_ERROR, []).

End zlib.

(** Strings without a double quote. *)
Fixpoint quote_free (s : string) : bool :=
  match s with
  | EmptyString => true
  | String c s' => negb (Ascii.eqb c (ascii_of_nat 34)) && quote_free s'
  end.

(** The first [t] elements of [target], then value-initialised elements:
    the contents of a view while a loop fills it. *)
Definition filled {T} `{Scalar T} (target : list T) (t : Z) : list T :=
  (firstn (Z.to_nat t) target
     ++ repeat zero (List.length target - Z.to_nat t))%list.

(** A view of [n0] rows of [n1] that the loops have filled up to [t]. *)
Definition partial {T} `{Scalar T} (n0 n1 : Z) (target : list T) (t : Z)
  : VizView T :=
  mk_VizView (mk_View n0 n1 (filled target t))
    (mk_View n0 n1 (repeat zero (Z.to_nat (n0 * n1)))) false.

(** The text of the element that opens a binary array. *)
Definition data_start_text (type name : string) (ncomps : Z) : string :=
  "<DataArray type=" ++ q type ++ " Name=" ++ q name
    ++ " NumberOfComponents=" ++ q (to_string ncomps)
    ++ " format=" ++ q "binary" ++ ">" ++ newline.

(** The arrays of a tree snapshot, each computed from the one sequence
    [leaves]: the cell types, the offsets, the connectivity, the corner
    coordinates, the depths and the positions. *)
Definition tree_types (dim : Z) (leaves : list Node) : list int8_t :=
  repeat (nth (Z.to_nat dim) vtk_types (int8 0)) (List.length leaves).

Definition tree_offsets (ncorners : Z) (leaves : list Node) : list int :=
  map (fun i => (i + 1) * ncorners) (iota (Z.of_nat (List.length leaves))).

Definition tree_connectivity (ncorners : Z) (leaves : list Node) : list int :=
  iota (Z.of_nat (List.length leaves) * ncorners).

Definition tree_coordinates
  (get_block_domain : Point -> Point -> p3a.box3 -> p3a.box3)
  (base : Point) (domain : p3a.box3) (ncorners : Z) (leaves : list Node)
  : list double :=
  flat_map (fun leaf =>
              flat_map components
                (leaf_corners get_block_domain base domain ncorners leaf))
    leaves.

Definition tree_depths (leaves : list Node) : list int :=
  map (fun leaf => depth (pt leaf)) leaves.

Definition tree_ijks (leaves : list Node) : list int :=
  flat_map (fun leaf => components (ijk (pt leaf))) leaves.

(** The document of a tree snapshot around its six arrays. *)
Definition tree_document (compressBound : Z -> Z)
  (compress2 : Z -> list byte -> Z -> Z * list byte)
  (npoints nleaves : Z) (types : list int8_t) (offsets connectivity : list int)
  (coordinates : list double) (depths ijks : list int) : M stream unit :=
  write_vtu_header ;;
  put ("<UnstructuredGrid>" ++ newline) ;;
  put ("<Piece NumberOfPoints=" ++ q (to_string npoints) ++ " ") ;;
  put ("NumberOfCells=" ++ q (to_string nleaves) ++ ">" ++ newline) ;;
  put ("<Cells>" ++ newline) ;;
  write_array compressBound compress2 "Int8" "types" 1 nleaves 1 types ;;
  write_array compressBound compress2 "Int32" "offsets" 1 nleaves 1 offsets ;;
  write_array compressBound compress2 "Int32" "connectivity" 1 npoints 1
    connectivity ;;
  put ("</Cells>" ++ newline) ;;
  put ("<Points>" ++ newline) ;;
  write_array compressBound compress2 "Float64" "coordinates" DIMS npoints DIMS
    coordinates ;;
  put ("</Points>" ++ newline) ;;
  put ("<CellData>" ++ newline) ;;
  write_array compressBound compress2 "Int32" "depth" 1 nleaves 1 depths ;;
  write_array compressBound compress2 "Int32" "ijk" DIMS nleaves DIMS ijks ;;
  put ("</CellData>" ++ newline) ;;
  put ("<PointData>" ++ newline) ;;
  put ("</PointData>" ++ newline) ;;
  put ("</Piece>" ++ newline) ;;
  put ("</UnstructuredGrid>" ++ newline) ;;
  put ("</VTKFile>" ++ newline).

(* ----------------------------------------------------------------- *)
(** *** Inputs to run the writers with *)

Definition d1 : double := double_of_int 1.

Definition cube (lo hi : double) : p3a.box3 :=
  p3a.mk_box3 (p3a.mk_vector3 lo lo lo) (p3a.mk_vector3 hi hi hi).

(** A block of degree [p] with 2 x 1 x 1 cells of unit spacing at the
    origin. *)
Definition sample_block (p : Z) : Block :=
  mk_Block (mk_Basis p) (p3a.mk_grid3 (p3a.mk_vector3 2 1 1))
    (cube d0 d1) (p3a.mk_vector3 d1 d1 d1)
    (mk_Node (mk_Point 0 (p3a.mk_vector3 0 0 0))) 0 0.

(** A tree of dimension 3 with two leaves at depth 1, and the box of a node:
    the domain cut in [2^depth] parts along each axis. *)
Definition sample_tree : Tree :=
  mk_Tree 3 (mk_Point 0 (p3a.mk_vector3 0 0 0))
    (mk_Node (mk_Point 0 (p3a.mk_vector3 0 0 0))).

Definition sample_leaves (tree : Tree) : list Node :=
  [ mk_Node (mk_Point 1 (p3a.mk_vector3 0 0 0));
    mk_Node (mk_Point 1 (p3a.mk_vector3 1 0 0)) ].

Definition sample_domain (base pt : Point) (domain : p3a.box3) : p3a.box3 :=
  let parts := double_of_int (2 ^ (depth pt - depth base)) in
  let e := p3a.box_extents domain in
  let size :=
    p3a.mk_vector3 (ddiv (p3a.x e) parts) (ddiv (p3a.y e) parts)
      (ddiv (p3a.z e) parts) in
  let lo := p3a.add (p3a.lower domain) (p3a.hadamard_product size (ijk pt)) in
  p3a.mk_box3 lo (p3a.add lo size).

Definition no_files : filesystem := fun _ => None.

(** The points of an axis with [n] cells of degree [p]: the formula at
    [0 .. (p+1)*n], each result converted to [float]. *)
Definition coordinate_points (p n : Z) (o spacing : double) : list float :=
  map (fun i => float_of_double (coordinate_formula p o spacing i))
    (iota ((p + 1) * n + 1)).

(** The status that the backend returns for the host array of [n0] rows of
    [n1] elements [xs]. *)
Definition array_status (compressBound : Z -> Z)
  (compress2 : Z -> list byte -> Z -> Z * list byte)
  {T} `{Scalar T} (n0 n1 : Z) (xs : list T) : Z :=
  fst (backend_call compressBound compress2 (mk_View n0 n1 xs)).

(** The file system after [contents] is stored at [path]. *)
Definition with_file (path : string) (contents : stream) (fs : filesystem)
  : filesystem :=
  fun f => if String.eqb f path then Some contents else fs f.

(** A [write_stream] to run the tree writer with: it stores the contents at
    the path. *)
Definition store_file (path : string) (contents : stream)
  : M filesystem unit :=
  fun fs => Ret tt (with_file path contents fs).

(** Numbers that are not zero, infinite or NaN; numbers that are zero or
    such. *)
Definition is_nonzero_finite (v : spec_float) : bool :=
  match v with
  | S754_finite _ _ _ => true
  | _ => false
  end.

Definition is_finite (v : spec_float) : bool :=
  match v with
  | S754_zero _ | S754_finite _ _ _ => true
  | _ => false
  end.




(** The text of one binary array around the digits [body]. *)
Definition array_text (type name : string) (ncomps : Z) (body : string)
  : string :=
  data_start_text type name ncomps ++ body ++ "</DataArray>" ++ newline.

(** The digits that [write_data] puts for a host view: the header of four
    words and the bytes that the backend returns, each in base64, and the end
    of the line. *)
Definition encoded_text (compressBound : Z -> Z)
  (compress2 : Z -> list byte -> Z -> Z * list byte)
  {T} `{Scalar T} (field : View T) : string :=
  let raw := u64 (sizeof * u64 (size field)) in
  let compressed := snd (backend_call compressBound compress2 field) in
  base64.encode
    (header_bytes [1; raw; raw; u64 (Z.of_nat (List.length compressed))])
    ++ base64.encode compressed ++ newline.

Definition vtu_header_text : string :=
  "<VTKFile type=" ++ q "UnstructuredGrid" ++ " header_type=" ++ q "UInt64"
    ++ " compressor=" ++ q "vtkZLibDataCompressor" ++ ">" ++ newline.

(** The text of a tree snapshot of [npoints] points and [nleaves] cells
    around the digits of its six arrays. *)
Definition tree_text (npoints nleaves : Z)
  (types offsets connectivity coordinates depths ijks : string) : string :=
  vtu_header_text
    ++ "<UnstructuredGrid>" ++ newline
    ++ "<Piece NumberOfPoints=" ++ q (to_string npoints)
    ++ " NumberOfCells=" ++ q (to_string nleaves) ++ ">" ++ newline
    ++ "<Cells>" ++ newline
    ++ array_text "Int8" "types" 1 types
    ++ array_text "Int32" "offsets" 1 offsets
    ++ array_text "Int32" "connectivity" 1 connectivity
    ++ "</Cells>" ++ newline
    ++ "<Points>" ++ newline
    ++ array_text "Float64" "coordinates" DIMS coordinates
    ++ "</Points>" ++ newline
    ++ "<CellData>" ++ newline
    ++ array_text "Int32" "depth" 1 depths
    ++ array_text "Int32" "ijk" DIMS ijks
    ++ "</CellData>" ++ newline
    ++ "<PointData>" ++ newline
    ++ "</PointData>" ++ newline
    ++ "</Piece>" ++ newline
    ++ "</UnstructuredGrid>" ++ newline
    ++ "</VTKFile>" ++ newline.

(** A value that an [int] holds. *)
Definition in_range (v : Z) : Prop := INT_MIN <= v <= INT_MAX.

(** The text of an extent attribute: [0 nx 0 ny 0 nz]. *)
Definition extent_text (n : p3a.vector3 Z) : string :=
  "0 " ++ to_string (p3a.x n) ++ " 0 " ++ to_string (p3a.y n)
    ++ " 0 " ++ to_string (p3a.z n).

(** One [DataSet] line of a manifest. *)
Definition dataset_line (i : Z) (file : string) : string :=
  "<DataSet index=" ++ q (to_string i) ++ " file=" ++ q file ++ "/>"
    ++ newline.

Definition vtm_header_text : string :=
  "<VTKFile type=" ++ q "vtkMultiBlockDataSet" ++ " version=" ++ q "1.0"
    ++ ">" ++ newline ++ "<vtkMultiBlockDataSet>" ++ newline.

Definition vtm_end_text : string :=
  "</vtkMultiBlockDataSet>" ++ newline ++ "</VTKFile>".

(** The file that the manifest names for block [i]. *)
Definition block_file (prefix : string) (i : Z) : string :=
  prefix ++ to_string i ++ ".vtr".

(* ================================================================= *)
(** * Properties *)

(* ----------------------------------------------------------------- *)
(** ** Strings and lists *)

Lemma append_assoc (a b c : string) : (a ++ b) ++ c = a ++ (b ++ c).
Proof.
  induction a as [|ch a IH]; simpl; [reflexivity | now rewrite IH].
Qed.

Lemma append_nil_r (a : string) : a ++ "" = a.
Proof.
  induction a as [|ch a IH]; simpl; [reflexivity | now rewrite IH].
Qed.

Lemma length_append (a b : string) :
  String.length (a ++ b) = (String.length a + String.length b)%nat.
Proof.
  induction a as [|ch a IH]; simpl; [reflexivity | now rewrite IH].
Qed.

Lemma take_append (a b : string) : take (String.length a) (a ++ b) = a.
Proof.
  induction a as [|ch a IH]; simpl.
  - now destruct b.
  - now rewrite IH.
Qed.

Lemma drop_append (a b : string) : drop (String.length a) (a ++ b) = b.
Proof.
  induction a as [|ch a IH]; simpl; [now destruct b | exact IH].
Qed.

Lemma iota_length (n : Z) : List.length (iota n) = Z.to_nat n.
Proof.
  unfold iota. now rewrite length_map, length_seq.
Qed.

Lemma iota_nth (n i : Z) :
  0 <= i < n -> nth_error (iota n) (Z.to_nat i) = Some i.
Proof.
  intros Hi. unfold iota.
  rewrite nth_error_map, nth_error_seq.
  destruct (Nat.ltb_spec (Z.to_nat i) (Z.to_nat n)) as [_|Hge]; [|lia].
  simpl. f_equal. lia.
Qed.

Lemma iota_succ (n : Z) : 0 <= n -> iota (n + 1) = (iota n ++ [n])%list.
Proof.
  intros Hn. unfold iota.
  replace (Z.to_nat (n + 1)) with (Datatypes.S (Z.to_nat n)) by lia.
  rewrite seq_S, map_app. simpl. do 3 f_equal. lia.
Qed.

(* ----------------------------------------------------------------- *)
(** ** Stepping through a computation *)

Lemma bind_ret {S A B} (m : M S A) (k : A -> M S B) s a s' :
  m s = Ret a s' -> bind m k s = k a s'.
Proof.
  intros H. unfold bind. now rewrite H.
Qed.

Lemma bind_throw {S A B} (m : M S A) (k : A -> M S B) s e s' :
  m s = Throw e s' -> bind m k s = Throw e s'.
Proof.
  intros H. unfold bind. now rewrite H.
Qed.

Lemma bind_undef {S A B} (m : M S A) (k : A -> M S B) s :
  m s = Undef -> bind m k s = Undef.
Proof.
  intros H. unfold bind. now rewrite H.
Qed.

Lemma in_int_true (v : Z) : in_range v -> in_int v = true.
Proof.
  unfold in_range, in_int. intros [H1 H2].
  apply andb_true_intro. split; now apply Z.leb_le.
Qed.

Lemma int_val_ok {S} (v : Z) (s : S) : in_range v -> int_val v s = Ret v s.
Proof.
  intros H. unfold int_val. now rewrite (in_int_true v H).
Qed.

Lemma int_add_ok {S} (a b : Z) (s : S) :
  in_range (a + b) -> int_add a b s = Ret (a + b) s.
Proof.
  apply int_val_ok.
Qed.

Lemma int_mul_ok {S} (a b : Z) (s : S) :
  in_range (a * b) -> int_mul a b s = Ret (a * b) s.
Proof.
  apply int_val_ok.
Qed.

Lemma scale_ok {S} (k : Z) (v : p3a.vector3 int) (s : S) :
  in_range (k * p3a.x v) -> in_range (k * p3a.y v) ->
  in_range (k * p3a.z v) ->
  p3a.scale k v s
  = Ret (p3a.mk_vector3 (k * p3a.x v) (k * p3a.y v) (k * p3a.z v)) s.
Proof.
  intros Hx Hy Hz. unfold p3a.scale.
  rewrite (bind_ret _ _ _ _ _ (int_mul_ok _ _ _ Hx)).
  rewrite (bind_ret _ _ _ _ _ (int_mul_ok _ _ _ Hy)).
  rewrite (bind_ret _ _ _ _ _ (int_mul_ok _ _ _ Hz)).
  reflexivity.
Qed.

(** A loop whose local state and stream after [j] iterations are [F j] and
    [G j]. *)
Lemma for_from_run {S A} (F : Z -> A) (G : Z -> S) (body : Z -> A -> M S A)
  (k : nat) (i : Z) :
  (forall j, i <= j < i + Z.of_nat k ->
             body j (F j) (G j) = Ret (F (j + 1)) (G (j + 1))) ->
  for_from k i body (F i) (G i)
  = Ret (F (i + Z.of_nat k)) (G (i + Z.of_nat k)).
Proof.
  revert i. induction k as [|k IH]; intros i Hstep.
  - simpl. unfold ret. rewrite Z.add_0_r. reflexivity.
  - simpl. rewrite (bind_ret _ _ _ _ _ (Hstep i ltac:(lia))).
    rewrite IH.
    + replace (i + 1 + Z.of_nat k) with (i + Z.of_nat (Datatypes.S k)) by lia.
      reflexivity.
    + intros j Hj. apply Hstep. lia.
Qed.

Lemma for_lt_run {S A} (F : Z -> A) (G : Z -> S) (body : Z -> A -> M S A)
  (n : Z) :
  0 <= n ->
  (forall j, 0 <= j < n -> body j (F j) (G j) = Ret (F (j + 1)) (G (j + 1))) ->
  for_lt n body (F 0) (G 0) = Ret (F n) (G n).
Proof.
  intros Hn Hstep. unfold for_lt.
  rewrite (for_from_run F G body (Z.to_nat n) 0).
  - replace (0 + Z.of_nat (Z.to_nat n)) with n by lia. reflexivity.
  - intros j Hj. apply Hstep. lia.
Qed.

(** The same for a loop that leaves the stream alone. *)
Lemma for_lt_local {S A} (F : Z -> A) (body : Z -> A -> M S A) (s : S)
  (n : Z) :
  0 <= n ->
  (forall j, 0 <= j < n -> body j (F j) s = Ret (F (j + 1)) s) ->
  for_lt n body (F 0) s = Ret (F n) s.
Proof.
  intros Hn Hstep. exact (for_lt_run F (fun _ => s) body n Hn Hstep).
Qed.

Lemma for_lt_none {S A} (body : Z -> A -> M S A) (a : A) (s : S) (n : Z) :
  n <= 0 -> for_lt n body a s = Ret a s.
Proof.
  intros Hn. unfold for_lt.
  replace (Z.to_nat n) with 0%nat by lia. reflexivity.
Qed.

(** Both sides of an equation between stream contents, put in one shape. *)
Ltac string_nf :=
  unfold q, quote, newline; simpl;
  repeat (progress (repeat rewrite append_assoc; simpl)).

(* ----------------------------------------------------------------- *)
(** ** The extents of a block (C8) *)

(** C8.  For a block of degree [p] with the cell grid [(nx, ny, nz)], the
    element that opens the rectilinear grid carries the whole extent
    [0 (p+1)nx 0 (p+1)ny 0 (p+1)nz] and the element that opens the piece
    carries the same extent, whenever [p+1] and the three products are
    values of an [int]. *)
Theorem block_extents (block : Block) (out : stream) :
  let p := p (basis block) in
  let cells := p3a.extents (cell_grid block) in
  let n := p3a.mk_vector3 ((p + 1) * p3a.x cells) ((p + 1) * p3a.y cells)
             ((p + 1) * p3a.z cells) in
  in_range (p + 1) ->
  in_range (p3a.x n) -> in_range (p3a.y n) -> in_range (p3a.z n) ->
  write_vtr_rectilinear_start block out
  = Ret tt (out ++ "<RectilinearGrid WholeExtent=" ++ q (extent_text n)
              ++ ">" ++ newline)
  /\ write_piece_start block out
     = Ret tt (out ++ "<Piece Extent=" ++ q (extent_text n) ++ ">"
                 ++ newline).
Proof.
  intros p0 cells n Hp Hx Hy Hz.
  unfold write_vtr_rectilinear_start, write_piece_start.
  fold p0. fold cells.
  split.
  - rewrite (bind_ret _ _ _ _ _ (int_add_ok _ _ _ Hp)).
    rewrite (bind_ret _ _ _ _ _ (scale_ok _ _ _ Hx Hy Hz)).
    unfold bind, put, extent_text. simpl p3a.x. simpl p3a.y. simpl p3a.z.
    f_equal. string_nf. reflexivity.
  - rewrite (bind_ret _ _ _ _ _ (int_add_ok _ _ _ Hp)).
    rewrite (bind_ret _ _ _ _ _ (scale_ok _ _ _ Hx Hy Hz)).
    unfold bind, put, extent_text. simpl p3a.x. simpl p3a.y. simpl p3a.z.
    f_equal. string_nf. reflexivity.
Qed.

(* ----------------------------------------------------------------- *)
(** ** The manifest (C5) *)

Lemma concat_all_app (l1 l2 : list string) :
  concat_all (l1 ++ l2) = concat_all l1 ++ concat_all l2.
Proof.
  induction l1 as [|a l1 IH]; simpl; [reflexivity|].
  now rewrite IH, append_assoc.
Qed.

Lemma write_vtm_source_file_text (i : Z) (file : string) (out : stream) :
  write_vtm_source_file i file out = Ret tt (out ++ dataset_line i file).
Proof.
  unfold write_vtm_source_file, dataset_line, bind, put.
  f_equal. string_nf. reflexivity.
Qed.

(** The manifest of [nblocks] blocks: the header, one [DataSet] line for each
    of [0 .. nblocks-1] in this order, naming [prefix ++ i ++ ".vtr"], and
    the end. *)
Lemma write_vtm_text (prefix : string) (nblocks : Z) (out : stream) :
  write_vtm prefix nblocks out
  = Ret tt (out ++ vtm_header_text
              ++ concat_all (map (fun i => dataset_line i (block_file prefix i))
                               (iota nblocks))
              ++ vtm_end_text).
Proof.
  set (line := fun i => dataset_line i (block_file prefix i)).
  set (G := fun j => out ++ vtm_header_text ++ concat_all (map line (iota j))).
  assert (Hhead : write_vtm_header out = Ret tt (G 0)).
  { unfold write_vtm_header, G, vtm_header_text, bind, put. f_equal.
    string_nf. reflexivity. }
  assert (Hend : forall s, write_vtm_end s = Ret tt (s ++ vtm_end_text)).
  { intros s. unfold write_vtm_end, vtm_end_text, bind, put. f_equal.
    string_nf. reflexivity. }
  unfold write_vtm.
  rewrite (bind_ret _ _ _ _ _ Hhead).
  destruct (Z.le_gt_cases 0 nblocks) as [Hn|Hn].
  - rewrite (bind_ret _ _ _ tt (G nblocks)).
    + rewrite Hend. unfold G. f_equal. now rewrite !append_assoc.
    + apply (for_lt_run (fun _ => tt) G); [exact Hn|].
      intros j Hj. rewrite write_vtm_source_file_text. f_equal.
      unfold G. rewrite (iota_succ j) by lia.
      rewrite map_app, concat_all_app.
      replace (concat_all (map line [j])) with (line j)
        by (symmetry; apply append_nil_r).
      now rewrite !append_assoc.
  - rewrite (bind_ret _ _ _ tt (G 0)).
    + rewrite Hend. unfold G, iota.
      replace (Z.to_nat nblocks) with 0%nat by lia.
      f_equal. now rewrite !append_assoc.
    + apply for_lt_none. lia.
Qed.

(** How [fields] cuts around strings without a double quote. *)
Lemma quote_free_app (a b : string) :
  quote_free a = true -> quote_free b = true -> quote_free (a ++ b) = true.
Proof.
  intros Ha Hb. induction a as [|c a IH]; simpl in *; [exact Hb|].
  apply andb_prop in Ha. destruct Ha as [Hc Ha].
  now rewrite Hc, IH.
Qed.

Lemma quote_free_uint (d : Decimal.uint) :
  quote_free (NilEmpty.string_of_uint d) = true.
Proof.
  induction d; simpl; auto.
Qed.

Lemma quote_free_to_string (i : Z) : quote_free (to_string i) = true.
Proof.
  unfold to_string, NilZero.string_of_int.
  destruct (Z.to_int i) as [d|d]; unfold NilZero.string_of_uint.
  - destruct d; try reflexivity; apply (quote_free_uint _).
  - destruct d; try reflexivity; apply (quote_free_uint _).
Qed.

Lemma fields_cut (a b : string) :
  quote_free a = true ->
  fields (a ++ String (ascii_of_nat 34) b) = a :: fields b.
Proof.
  intros Ha. induction a as [|c a IH].
  - simpl. reflexivity.
  - simpl in Ha. apply andb_prop in Ha. destruct Ha as [Hc Ha].
    change (String c a ++ String (ascii_of_nat 34) b)
      with (String c (a ++ String (ascii_of_nat 34) b)).
    cbn [fields].
    apply negb_true_iff in Hc. rewrite Hc, (IH Ha). reflexivity.
Qed.

Lemma fields_cut_quote (a b : string) :
  quote_free a = true -> fields (a ++ quote ++ b) = a :: fields b.
Proof.
  apply fields_cut.
Qed.

Lemma fields_whole (a : string) : quote_free a = true -> fields a = [a].
Proof.
  intros Ha. induction a as [|c a IH]; [reflexivity|].
  simpl in Ha. apply andb_prop in Ha. destruct Ha as [Hc Ha].
  cbn [fields]. apply negb_true_iff in Hc. now rewrite Hc, (IH Ha).
Qed.

Lemma drop_add (a b : string) (k : nat) :
  drop (String.length a + k) (a ++ b) = drop k b.
Proof.
  induction a as [|c a IH]; simpl; [reflexivity | exact IH].
Qed.

Lemma ends_with_app (suffix a b : string) :
  (String.length suffix <= String.length b)%nat ->
  ends_with suffix (a ++ b) = ends_with suffix b.
Proof.
  intros Hlen. unfold ends_with. rewrite length_append.
  replace (String.length a + String.length b - String.length suffix)%nat
    with (String.length a + (String.length b - String.length suffix))%nat
    by lia.
  now rewrite drop_add.
Qed.

(** The [file] attributes found after a piece [pre] without quotes, in the
    lines of the blocks [l] followed by the end of the manifest. *)
Lemma file_attributes_lines (prefix : string) (l : list Z) (pre : string) :
  quote_free prefix = true ->
  quote_free pre = true ->
  attribute_values "file"
    (fields (pre ++ concat_all
                      (map (fun i => dataset_line i (block_file prefix i)) l)
               ++ vtm_end_text))
  = map (block_file prefix) l.
Proof.
  intros Hprefix. revert pre.
  induction l as [|i l IH]; intros pre Hpre.
  - simpl concat_all. rewrite fields_whole; [reflexivity|].
    apply quote_free_app; [exact Hpre | reflexivity].
  - cbn [map concat_all fold_right]. fold (concat_all
      (map (fun i => dataset_line i (block_file prefix i)) l)).
    unfold dataset_line at 1. unfold q.
    repeat rewrite append_assoc.
    rewrite <- (append_assoc pre "<DataSet index=").
    rewrite fields_cut_quote
      by (apply quote_free_app; [exact Hpre | reflexivity]).
    rewrite fields_cut_quote by apply quote_free_to_string.
    rewrite fields_cut_quote by reflexivity.
    rewrite fields_cut_quote.
    + cbn [attribute_values].
      rewrite ends_with_app by (simpl; lia).
      replace (ends_with (" " ++ "file" ++ "=") "<DataSet index=") with false
        by reflexivity.
      replace (ends_with (" " ++ "file" ++ "=") " file=") with true
        by reflexivity.
      f_equal.
      rewrite <- (IH ("/>" ++ newline)) by reflexivity.
      now rewrite !append_assoc.
    + unfold block_file.
      apply quote_free_app; [exact Hprefix|].
      apply quote_free_app; [apply quote_free_to_string | reflexivity].
Qed.

(** The text of a manifest and the files that its lines reference. *)
Lemma manifest_references_lines (prefix : string) (nblocks : Z)
  (out : stream) :
  quote_free prefix = true ->
  let text :=
    vtm_header_text
      ++ concat_all (map (fun i => dataset_line i (block_file prefix i))
                       (iota nblocks))
      ++ vtm_end_text in
  write_vtm prefix nblocks out = Ret tt (out ++ text)
  /\ file_attributes text = map (block_file prefix) (iota nblocks).
Proof.
  intros Hprefix text. split; [apply write_vtm_text|].
  unfold file_attributes, text, vtm_header_text, q.
  repeat rewrite append_assoc.
  rewrite fields_cut_quote by reflexivity.
  rewrite fields_cut_quote by reflexivity.
  rewrite fields_cut_quote by reflexivity.
  rewrite fields_cut_quote by reflexivity.
  cbn [attribute_values].
  replace (ends_with (" " ++ "file" ++ "=") "<VTKFile type=") with false
    by reflexivity.
  replace (ends_with (" " ++ "file" ++ "=") " version=") with false
    by reflexivity.
  rewrite <- (file_attributes_lines prefix (iota nblocks)
                (">" ++ newline ++ "<vtkMultiBlockDataSet>" ++ newline))
    by (exact Hprefix || reflexivity).
  now rewrite !append_assoc.
Qed.

(** C5, as amended.  For every prefix without a double quote and every block
    count, the manifest writer appends the header, one [DataSet] line per
    block index [0 .. nblocks-1] in this order, and the end; there are
    [nblocks] lines (none for a negative count), and the files that the
    lines reference are [prefix ++ i ++ ".vtr"], in the order of the
    indices. *)
Theorem manifest_references (prefix : string) (nblocks : Z) (out : stream) :
  quote_free prefix = true ->
  let lines :=
    map (fun i => dataset_line i (block_file prefix i)) (iota nblocks) in
  let text := vtm_header_text ++ concat_all lines ++ vtm_end_text in
  write_vtm prefix nblocks out = Ret tt (out ++ text)
  /\ List.length lines = Z.to_nat nblocks
  /\ file_attributes text = map (block_file prefix) (iota nblocks).
Proof.
  intros Hprefix lines text. split; [|split].
  - apply write_vtm_text.
  - unfold lines. now rewrite length_map, iota_length.
  - unfold file_attributes, text, vtm_header_text, q.
    repeat rewrite append_assoc.
    rewrite fields_cut_quote by reflexivity.
    rewrite fields_cut_quote by reflexivity.
    rewrite fields_cut_quote by reflexivity.
    rewrite fields_cut_quote by reflexivity.
    cbn [attribute_values].
    replace (ends_with (" " ++ "file" ++ "=") "<VTKFile type=") with false
      by reflexivity.
    replace (ends_with (" " ++ "file" ++ "=") " version=") with false
      by reflexivity.
    rewrite <- (file_attributes_lines prefix (iota nblocks)
                  (">" ++ newline ++ "<vtkMultiBlockDataSet>" ++ newline))
      by (exact Hprefix || reflexivity).
    unfold lines. now rewrite !append_assoc.
Qed.

(** For three blocks and the prefix [out_] the manifest references
    [out_0.vtr], [out_1.vtr] and [out_2.vtr]. *)
Lemma manifest_references_witness :
  quote_free "out_" = true
  /\ write_vtm "out_" 3 ""
     = Ret tt
         ("" ++ vtm_header_text
            ++ concat_all
                 (map (fun i => dataset_line i (block_file "out_" i)) (iota 3))
            ++ vtm_end_text)
  /\ file_attributes
       (vtm_header_text
          ++ concat_all
               (map (fun i => dataset_line i (block_file "out_" i)) (iota 3))
          ++ vtm_end_text)
     = ["out_0.vtr"; "out_1.vtr"; "out_2.vtr"].
Proof.
  split; [reflexivity|].
  destruct (manifest_references "out_" 3 "" eq_refl) as [Hrun [_ Hfiles]].
  split; [exact Hrun | exact Hfiles].
Defined.

(** The claim that the manifest of three blocks with the prefix [out_]
    references exactly [out_0], [out_1] and [out_2] fails: every reference
    ends in [.vtr]. *)
Lemma manifest_names_have_suffix :
  exists text,
    write_vtm "out_" 3 "" = Ret tt text
    /\ file_attributes text = ["out_0.vtr"; "out_1.vtr"; "out_2.vtr"]
    /\ file_attributes text <> ["out_0"; "out_1"; "out_2"].
Proof.
  eexists. split; [vm_compute; reflexivity|].
  split; [vm_compute; reflexivity|].
  vm_compute. discriminate.
Qed.

(* ----------------------------------------------------------------- *)
(** ** Bytes and words *)

Lemma le_bytes_length (k : nat) (n : N) : List.length (le_bytes k n) = k.
Proof.
  revert n. induction k as [|k IH]; intros n; simpl; [reflexivity|].
  now rewrite IH.
Qed.

Lemma to_N_byte_of_N (n : N) : Byte.to_N (byte_of_N n) = (n mod 256)%N.
Proof.
  unfold byte_of_N.
  destruct (Byte.of_N (n mod 256)) as [b|] eqn:E.
  - now apply Byte.to_of_N.
  - pose proof (Byte.to_of_N_option_map (n mod 256)%N) as H.
    rewrite E in H. simpl in H.
    assert (n mod 256 < 256)%N by (apply N.mod_upper_bound; discriminate).
    destruct (N.leb_spec (n mod 256) 255); [discriminate | lia].
Qed.

Lemma byte_of_to_N (b : byte) : byte_of_N (Byte.to_N b) = b.
Proof.
  unfold byte_of_N.
  pose proof (Byte.to_N_bounded b) as Hb.
  rewrite N.mod_small by lia.
  now rewrite Byte.of_to_N.
Qed.

Lemma le_value_le_bytes (k : nat) (n : N) :
  le_value (le_bytes k n) = (n mod 256 ^ N.of_nat k)%N.
Proof.
  revert n. induction k as [|k IH]; intros n.
  - simpl. now rewrite N.mod_1_r.
  - cbn [le_bytes le_value]. rewrite to_N_byte_of_N, IH.
    replace (N.of_nat (Datatypes.S k)) with (N.succ (N.of_nat k)) by lia.
    rewrite N.pow_succ_r'.
    rewrite (N.Div0.mod_mul_r n 256 (256 ^ N.of_nat k)). reflexivity.
Qed.

Lemma header_bytes_length (a b c d : Z) :
  List.length (header_bytes [a; b; c; d]) = 32%nat.
Proof.
  reflexivity.
Qed.

Lemma data_length {T} `{ScalarLayout T} (v : View T) :
  Z.of_nat (List.length (data v)) = sizeof * Z.of_nat (List.length (elems v)).
Proof.
  unfold data. induction (elems v) as [|x xs IH]; simpl; [lia|].
  rewrite length_app, Nat2Z.inj_add, IH, (raw_length x). lia.
Qed.

#[export] Instance ScalarLayout_int8_t : ScalarLayout int8_t.
Proof. intros [v]. reflexivity. Qed.

#[export] Instance ScalarLayout_int : ScalarLayout int.
Proof. intros v. reflexivity. Qed.

#[export] Instance ScalarLayout_float : ScalarLayout float.
Proof. intros [v]. reflexivity. Qed.

#[export] Instance ScalarLayout_double : ScalarLayout double.
Proof. intros v. reflexivity. Qed.

Lemma host_array_wf {T} (n0 n1 : Z) (xs : list T) :
  0 <= n0 -> 0 <= n1 -> Z.of_nat (List.length xs) = n0 * n1 ->
  wf_view (h_view (host_array n0 n1 xs)).
Proof.
  intros H0 H1 Hlen. unfold wf_view, host_array. simpl. auto.
Qed.

(* ----------------------------------------------------------------- *)
(** ** The encoder (C1, C9) *)

Section EncoderProperties.

Variable compressBound : Z -> Z.
Variable compress2 : Z -> list byte -> Z -> Z * list byte.

(** [write_data] reads the host view only, after the copy if there is one. *)
Lemma write_data_host {T} `{Scalar T} (a b : VizView T) (out : stream) :
  h_view a = h_view b ->
  write_data compressBound compress2 a false out
  = write_data compressBound compress2 b false out.
Proof.
  intros E. unfold write_data. now rewrite E.
Qed.

Lemma raw_size_u64 {T} `{ScalarLayout T} (field : View T) :
  wf_view field ->
  Z.of_nat (List.length (data field)) < 2 ^ 64 ->
  u64 (sizeof * u64 (size field)) = Z.of_nat (List.length (data field)).
Proof.
  intros (_ & _ & Hlen) Hsmall. unfold u64, size.
  rewrite Z.mul_mod_idemp_r by lia.
  rewrite <- Hlen, <- data_length.
  apply Z.mod_small. lia.
Qed.

(** The text that [write_data] appends when the backend succeeds. *)
Lemma write_data_host_output {T} `{ScalarLayout T}
  (dual : VizView T) (copy : bool) (c : list byte) (out : stream) :
  let field := h_view (if copy then sync_host dual else dual) in
  let rawBytes := Z.of_nat (List.length (data field)) in
  let compressedBytes := Z.of_nat (List.length c) in
  let header := header_bytes [1; rawBytes; rawBytes; compressedBytes] in
  wf_view field ->
  rawBytes < 2 ^ 64 ->
  compressedBytes < 2 ^ 64 ->
  compress2 (compressBound rawBytes) (data field) Z_BEST_SPEED = (Z_OK, c) ->
  write_data compressBound compress2 dual copy out
  = Ret tt (out ++ base64.encode header ++ base64.encode c ++ newline)
  /\ List.length header = 32%nat.
Proof.
  intros field rawBytes compressedBytes header Hwf Hraw Hcomp Hcall.
  split; [|apply header_bytes_length].
  unfold write_data. fold field.
  rewrite (raw_size_u64 field Hwf Hraw). fold rawBytes.
  replace (Z.to_nat rawBytes) with (List.length (data field))
    by (unfold rawBytes; lia).
  rewrite firstn_all, Hcall. cbn [negb Z.eqb Z_OK].
  unfold bind, put. fold compressedBytes.
  unfold u64. rewrite (Z.mod_small compressedBytes) by lia.
  fold header. now rewrite !append_assoc.
Qed.

(** C1.  For a well-formed array whose host copy (after the copy from the
    device, if one is asked for) holds [rawBytes] bytes, and a backend that
    returns [Z_OK] with the [compressedBytes] bytes [c], the encoder appends
    exactly: the base64 of the 32 bytes of the four 64-bit words
    [1, rawBytes, rawBytes, compressedBytes], least significant byte first,
    then at once the base64 of [c], then one newline. *)
Theorem write_data_output {T} `{ScalarLayout T}
  (dual : VizView T) (copy : bool) (c : list byte) (out : stream) :
  let field := h_view (if copy then sync_host dual else dual) in
  let rawBytes := Z.of_nat (List.length (data field)) in
  let compressedBytes := Z.of_nat (List.length c) in
  let header := header_bytes [1; rawBytes; rawBytes; compressedBytes] in
  wf_view field ->
  rawBytes < 2 ^ 64 ->
  compressedBytes < 2 ^ 64 ->
  compress2 (compressBound rawBytes) (data field) Z_BEST_SPEED = (Z_OK, c) ->
  write_data compressBound compress2 dual copy out
  = Ret tt (out ++ base64.encode header ++ base64.encode c ++ newline)
  /\ List.length header = 32%nat
  /\ header
     = (le_bytes 8 1 ++ le_bytes 8 (Z.to_N rawBytes)
          ++ le_bytes 8 (Z.to_N rawBytes)
          ++ le_bytes 8 (Z.to_N compressedBytes))%list.
Proof.
  intros field rawBytes compressedBytes header Hwf Hraw Hcomp Hcall.
  destruct (write_data_host_output dual copy c out Hwf Hraw Hcomp Hcall)
    as [Hrun Hlen].
  split; [exact Hrun|]. split; [exact Hlen|].
  unfold header, header_bytes. cbn [flat_map].
  now rewrite app_nil_r.
Qed.

Lemma write_data_fails {T} `{Scalar T} (dual : VizView T) (copy : bool)
  (out : stream) :
  fst (backend_call compressBound compress2
         (h_view (if copy then sync_host dual else dual))) <> Z_OK ->
  write_data compressBound compress2 dual copy out = Throw zlib_error out.
Proof.
  unfold backend_call, write_data. intros Hr.
  destruct (compress2 _ _ _) as [r c]. simpl in Hr.
  destruct (Z.eqb_spec r Z_OK) as [E|_]; [contradiction|]. reflexivity.
Qed.

Lemma write_data_cases {T} `{Scalar T} (dual : VizView T) (copy : bool)
  (out : stream) :
  (exists text, write_data compressBound compress2 dual copy out
                = Ret tt (out ++ text))
  \/ write_data compressBound compress2 dual copy out = Throw zlib_error out.
Proof.
  unfold write_data.
  destruct (compress2 _ _ _) as [r c].
  destruct (negb (r =? Z_OK)).
  - right. reflexivity.
  - left. unfold bind, put. eexists. rewrite !append_assoc. reflexivity.
Qed.

End EncoderProperties.

(* ----------------------------------------------------------------- *)
(** ** Which computations throw *)

Create HintDb cxx.

Lemma quiet_ret {S A} (a : A) : quiet (ret (S := S) a).
Proof. intros s e s'. discriminate. Qed.

Lemma quiet_undef {S A} : quiet (undef (S := S) (A := A)).
Proof. intros s e s'. discriminate. Qed.

Lemma quiet_bind {S A B} (m : M S A) (k : A -> M S B) :
  quiet m -> (forall a, quiet (k a)) -> quiet (bind m k).
Proof.
  intros Hm Hk s e s'. unfold bind.
  destruct (m s) as [a s1|e1 s1|] eqn:E.
  - apply Hk.
  - exfalso. exact (Hm s e1 s1 E).
  - discriminate.
Qed.

Lemma quiet_put (text : string) : quiet (put text).
Proof. intros s e s'. discriminate. Qed.

Lemma quiet_defined {S A} (o : option A) : quiet (defined (S := S) o).
Proof. destruct o; [apply quiet_ret | apply quiet_undef]. Qed.

Lemma quiet_int_val {S} (v : Z) : quiet (int_val (S := S) v).
Proof.
  unfold int_val. destruct (in_int v); [apply quiet_ret | apply quiet_undef].
Qed.

Lemma quiet_int_add {S} (a b : Z) : quiet (int_add (S := S) a b).
Proof. apply quiet_int_val. Qed.

Lemma quiet_int_mul {S} (a b : Z) : quiet (int_mul (S := S) a b).
Proof. apply quiet_int_val. Qed.

Lemma quiet_int_rem {S} (a b : Z) : quiet (int_rem (S := S) a b).
Proof.
  unfold int_rem. destruct (_ || _); [apply quiet_undef | apply quiet_ret].
Qed.

Lemma quiet_ipow {S} (b e : Z) : quiet (ipow (S := S) b e).
Proof.
  unfold ipow. destruct (e <? 0); [apply quiet_undef | apply quiet_int_val].
Qed.

Lemma quiet_index {S A} (a : list A) (i : Z) : quiet (index (S := S) a i).
Proof.
  unfold index. destruct (i <? 0); [apply quiet_undef | apply quiet_defined].
Qed.

Lemma quiet_get {S A} (v : p3a.vector3 A) (axis : Z) :
  quiet (p3a.get (S := S) v axis).
Proof.
  unfold p3a.get.
  repeat match goal with
         | |- quiet (if ?c then _ else _) => destruct c
         end; (apply quiet_ret || apply quiet_undef).
Qed.

Lemma quiet_resize {S T} `{Scalar T} (n0 n1 : Z) :
  quiet (resize (S := S) (T := T) n0 n1).
Proof.
  unfold resize. destruct (_ || _); [apply quiet_undef | apply quiet_ret].
Qed.

Lemma quiet_store {S T} (v : VizView T) (i j : Z) (x : T) :
  quiet (store (S := S) v i j x).
Proof.
  unfold store. destruct (_ && _); [apply quiet_ret | apply quiet_undef].
Qed.

Lemma quiet_for_from {S A} (body : Z -> A -> M S A) (k : nat) (i : Z) (a : A) :
  (forall j b, quiet (body j b)) -> quiet (for_from k i body a).
Proof.
  intros Hbody. revert i a.
  induction k as [|k IH]; intros i a; simpl.
  - apply quiet_ret.
  - apply quiet_bind; [apply Hbody | intros b; apply IH].
Qed.

Lemma quiet_for_lt {S A} (body : Z -> A -> M S A) (n : Z) (a : A) :
  (forall j b, quiet (body j b)) -> quiet (for_lt n body a).
Proof. apply quiet_for_from. Qed.

Lemma quiet_for_each {S A X} (body : X -> A -> M S A) (xs : list X) (a : A) :
  (forall x b, quiet (body x b)) -> quiet (for_each xs body a).
Proof.
  intros Hbody. revert a.
  induction xs as [|x xs IH]; intros a; simpl.
  - apply quiet_ret.
  - apply quiet_bind; [apply Hbody | intros b; apply IH].
Qed.

Lemma quiet_scale {S} (k : Z) (v : p3a.vector3 int) :
  quiet (p3a.scale (S := S) k v).
Proof.
  unfold p3a.scale.
  repeat (apply quiet_bind; [apply quiet_int_mul | intros ?]).
  apply quiet_ret.
Qed.

Lemma quiet_write_data_end : quiet write_data_end.
Proof. apply quiet_put. Qed.

#[export] Hint Resolve quiet_ret quiet_undef quiet_put quiet_defined
  quiet_int_val quiet_int_add quiet_int_mul quiet_int_rem quiet_ipow
  quiet_index quiet_get quiet_resize quiet_store quiet_scale
  quiet_write_data_end : cxx.

(** Quiet steps, one after the other. *)
Ltac quiet_steps :=
  repeat first
    [ apply quiet_bind; [|intros ?]
    | apply quiet_for_lt; intros ? ?
    | apply quiet_for_each; intros ? ?
    | match goal with
      | |- quiet (let '(_, _) := ?x in _) => destruct x
      end
    | solve [auto with cxx] ].

Lemma aborts_bind_l {S A B} (e : exn) (m : M S A) (k : A -> M S B) :
  aborts e m -> aborts e (bind m k).
Proof.
  intros Hm s. unfold bind. specialize (Hm s).
  destruct (m s); [contradiction | exact Hm | exact I].
Qed.

Lemma aborts_bind_r {S A B} (e : exn) (m : M S A) (k : A -> M S B) :
  quiet m -> (forall a, aborts e (k a)) -> aborts e (bind m k).
Proof.
  intros Hm Hk s. unfold bind.
  destruct (m s) as [a s1|e1 s1|] eqn:E.
  - apply Hk.
  - exfalso. exact (Hm s e1 s1 E).
  - exact I.
Qed.

(* ----------------------------------------------------------------- *)
(** ** Filling a view element by element *)

Lemma set_nth_app {T} (l1 l2 : list T) (x y : T) :
  set_nth (List.length l1) x (l1 ++ y :: l2) = (l1 ++ x :: l2)%list.
Proof.
  induction l1 as [|a l1 IH]; simpl; [reflexivity | now rewrite IH].
Qed.

Lemma firstn_succ_nth {T} (l : list T) (t : nat) (x : T) :
  nth_error l t = Some x -> firstn (Datatypes.S t) l = (firstn t l ++ [x])%list.
Proof.
  revert t. induction l as [|a l IH]; intros [|t] E; simpl in *;
    try discriminate.
  - now inversion E.
  - now rewrite (IH t E).
Qed.

Section Filling.

Context {T : Type} `{Scalar T}.

Lemma filled_all (target : list T) :
  filled target (Z.of_nat (List.length target)) = target.
Proof.
  unfold filled. rewrite Nat2Z.id, firstn_all, Nat.sub_diag. simpl.
  apply app_nil_r.
Qed.

Lemma filled_step (target : list T) (t : Z) (x : T) :
  0 <= t ->
  nth_error target (Z.to_nat t) = Some x ->
  set_nth (Z.to_nat t) x (filled target t) = filled target (t + 1).
Proof.
  intros Ht E.
  assert (Hlt : (Z.to_nat t < List.length target)%nat)
    by (apply nth_error_Some; congruence).
  unfold filled.
  replace (Z.to_nat (t + 1)) with (Datatypes.S (Z.to_nat t)) by lia.
  rewrite (firstn_succ_nth _ _ _ E), <- app_assoc. simpl.
  replace (List.length target - Z.to_nat t)%nat
    with (Datatypes.S (List.length target - Datatypes.S (Z.to_nat t))) by lia.
  simpl.
  rewrite <- (set_nth_app (firstn (Z.to_nat t) target) _ x zero).
  f_equal. rewrite length_firstn. lia.
Qed.

Lemma resize_partial {S} (n0 n1 : Z) (target : list T) (s : S) :
  0 <= n0 -> 0 <= n1 ->
  List.length target = Z.to_nat (n0 * n1) ->
  resize n0 n1 s = Ret (partial n0 n1 target 0) s.
Proof.
  intros H0 H1 Hlen. unfold resize.
  destruct (Z.ltb_spec n0 0); [lia|].
  destruct (Z.ltb_spec n1 0); [lia|].
  simpl. unfold ret, partial, filled. simpl. rewrite Hlen, Nat.sub_0_r.
  reflexivity.
Qed.

Lemma store_partial {S} (n0 n1 : Z) (target : list T) (i j : Z) (x : T)
  (s : S) :
  0 <= i < n0 -> 0 <= j < n1 ->
  nth_error target (Z.to_nat (i * n1 + j)) = Some x ->
  store (partial n0 n1 target (i * n1 + j)) i j x s
  = Ret (partial n0 n1 target (i * n1 + j + 1)) s.
Proof.
  intros Hi Hj E. unfold store, partial. cbn [h_view extent0 extent1 elems].
  destruct (Z.leb_spec 0 i); [|lia].
  destruct (Z.ltb_spec i n0); [|lia].
  destruct (Z.leb_spec 0 j); [|lia].
  destruct (Z.ltb_spec j n1); [|lia].
  simpl. unfold ret. rewrite filled_step; [reflexivity | nia | exact E].
Qed.

(** After the last element the view holds [target]. *)
Lemma partial_done (n0 n1 : Z) (target : list T) :
  h_view (partial n0 n1 target (Z.of_nat (List.length target)))
  = h_view (host_array n0 n1 target).
Proof.
  unfold partial, host_array. cbn [h_view]. now rewrite filled_all.
Qed.

End Filling.

(** A loop over a list whose local state after [k] elements is [F k]. *)
Lemma for_each_run {S A X} (F : nat -> A) (body : X -> A -> M S A) (s : S)
  (xs : list X) (k : nat) :
  (forall j x, nth_error xs j = Some x ->
               body x (F (k + j)%nat) s = Ret (F (k + j + 1)%nat) s) ->
  for_each xs body (F k) s = Ret (F (k + List.length xs)%nat) s.
Proof.
  revert k. induction xs as [|x xs IH]; intros k Hstep.
  - simpl. unfold ret. now rewrite Nat.add_0_r.
  - simpl. pose proof (Hstep 0%nat x eq_refl) as H0.
    rewrite Nat.add_0_r in H0.
    rewrite (bind_ret _ _ _ _ _ H0).
    rewrite (IH (k + 1)%nat).
    + f_equal. f_equal. lia.
    + intros j y E.
      replace (k + 1 + j)%nat with (k + Datatypes.S j)%nat by lia.
      apply Hstep. exact E.
Qed.

Lemma bind_congr {S A B} (m1 m2 : M S A) (k1 k2 : A -> M S B) :
  (forall s, m1 s = m2 s) -> (forall a s, k1 a s = k2 a s) ->
  forall s, bind m1 k1 s = bind m2 k2 s.
Proof.
  intros Hm Hk s. unfold bind. rewrite Hm.
  destruct (m2 s); [apply Hk | reflexivity | reflexivity].
Qed.

Lemma nth_error_flat_map_rows {X Y} (f : X -> list Y) (w : nat) (l : list X)
  (i a : nat) (x : X) :
  (forall y, List.length (f y) = w) ->
  nth_error l i = Some x -> (a < w)%nat ->
  nth_error (flat_map f l) (i * w + a) = nth_error (f x) a.
Proof.
  intros Hw. revert i. induction l as [|y l IH]; intros i E Ha.
  - destruct i; discriminate.
  - destruct i as [|i]; simpl in *.
    + inversion E; subst. rewrite nth_error_app1; [reflexivity|].
      rewrite Hw. exact Ha.
    + rewrite nth_error_app2 by (rewrite Hw; lia).
      rewrite Hw. replace (w + i * w + a - w)%nat with (i * w + a)%nat by lia.
      now apply IH.
Qed.

Lemma flat_map_rows_length {X Y} (f : X -> list Y) (w : nat) (l : list X) :
  (forall y, List.length (f y) = w) ->
  List.length (flat_map f l) = (List.length l * w)%nat.
Proof.
  intros Hw. induction l as [|y l IH]; simpl; [reflexivity|].
  now rewrite length_app, Hw, IH.
Qed.

Lemma int_of_size_small (v : Z) : 0 <= v <= INT_MAX -> int_of_size v = v.
Proof.
  unfold int_of_size, INT_MAX. intros Hv.
  rewrite Z.mod_small; lia.
Qed.

Lemma index_nth {S A} (a : list A) (i : Z) (x : A) (s : S) :
  0 <= i -> nth_error a (Z.to_nat i) = Some x -> index a i s = Ret x s.
Proof.
  intros Hi E. unfold index.
  destruct (Z.ltb_spec i 0); [lia|]. now rewrite E.
Qed.

Lemma get_component {S A} (v : p3a.vector3 A) (axis : Z) (s : S) :
  0 <= axis < 3 -> p3a.get v axis s = Ret (component v axis) s.
Proof.
  intros Ha. unfold p3a.get, component.
  destruct (Z.eqb_spec axis 0); [reflexivity|].
  destruct (Z.eqb_spec axis 1); [reflexivity|].
  destruct (Z.eqb_spec axis 2); [reflexivity | lia].
Qed.

Lemma components_nth {A} (v : p3a.vector3 A) (axis : Z) :
  0 <= axis < 3 ->
  nth_error (components v) (Z.to_nat axis) = Some (component v axis).
Proof.
  intros Ha. unfold component, components.
  assert (axis = 0 \/ axis = 1 \/ axis = 2) as [E|[E|E]] by lia;
    subst; reflexivity.
Qed.

Lemma write_data_start_text (type name : string) (ncomps : Z) (out : stream) :
  write_data_start type name ncomps out
  = Ret tt (out ++ data_start_text type name ncomps).
Proof.
  unfold write_data_start, data_start_text, bind, put.
  f_equal. string_nf. reflexivity.
Qed.

(* ----------------------------------------------------------------- *)
(** ** The arrays of a tree snapshot (C6, C7) *)

Section TreeProperties.

Variable compressBound : Z -> Z.
Variable compress2 : Z -> list byte -> Z -> Z * list byte.
Variable collect_leaves : Tree -> list Node.
Variable get_block_domain : Point -> Point -> p3a.box3 -> p3a.box3.
Variable write_stream : string -> stream -> M filesystem unit.

(** The end of every array writer: the view that the loop has filled is
    encoded between the opening and the closing element. *)
Lemma finish_array {T} `{Scalar T} (v : VizView T) (n0 n1 : Z)
  (target : list T) (type name : string) (ncomps : Z) (s : stream) :
  h_view v = h_view (host_array n0 n1 target) ->
  (write_data_start type name ncomps ;;
   write_data compressBound compress2 v false ;;
   write_data_end) s
  = write_array compressBound compress2 type name ncomps n0 n1 target s.
Proof.
  intros E. unfold write_array.
  apply bind_congr; [reflexivity|]. intros _ s1.
  apply bind_congr; [|reflexivity]. intros s2.
  now apply write_data_host.
Qed.

Lemma write_tree_types_array (dim : Z) (leaves : list Node) (s : stream) :
  0 <= dim <= 3 ->
  write_tree_types compressBound compress2 dim (Z.of_nat (List.length leaves)) s
  = write_array compressBound compress2 "Int8" "types" 1
      (Z.of_nat (List.length leaves)) 1 (tree_types dim leaves) s.
Proof.
  intros Hdim. set (n := Z.of_nat (List.length leaves)).
  set (ty := nth (Z.to_nat dim) vtk_types (int8 0)).
  set (target := tree_types dim leaves).
  assert (Hlen : List.length target = Z.to_nat n).
  { unfold target, tree_types, n. rewrite repeat_length. lia. }
  unfold write_tree_types.
  rewrite (bind_ret _ _ _ ty s).
  2:{ apply index_nth; [lia|]. unfold ty.
      apply nth_error_nth'. simpl. lia. }
  rewrite (bind_ret _ _ _ _ _
             (resize_partial n 1 target s ltac:(lia) ltac:(lia)
                ltac:(rewrite Hlen; f_equal; lia))).
  rewrite (bind_ret _ _ _ (partial n 1 target n) s).
  - apply finish_array. rewrite <- partial_done. f_equal. f_equal.
    rewrite Hlen. lia.
  - apply (for_lt_local (fun j => partial n 1 target j)); [lia|].
    intros j Hj.
    replace j with (j * 1 + 0) at 1 by lia.
    replace (j + 1) with (j * 1 + 0 + 1) by lia.
    apply store_partial; [lia | lia |].
    unfold target, tree_types. fold ty.
    apply nth_error_repeat. lia.
Qed.

Lemma store_partial_column {S T} `{Scalar T} (n : Z) (target : list T)
  (j : Z) (x : T) (s : S) :
  0 <= j < n ->
  nth_error target (Z.to_nat j) = Some x ->
  store (partial n 1 target j) j 0 x s = Ret (partial n 1 target (j + 1)) s.
Proof.
  intros Hj E.
  replace j with (j * 1 + 0) at 1 by lia.
  replace (j + 1) with (j * 1 + 0 + 1) by lia.
  apply store_partial; [lia | lia |].
  now replace (j * 1 + 0) with j by lia.
Qed.

Lemma write_tree_offsets_array (nents : Z) (leaves : list Node) (s : stream) :
  let n := Z.of_nat (List.length leaves) in
  0 <= nents -> in_range ((n + 1) * nents) ->
  write_tree_offsets compressBound compress2 n nents s
  = write_array compressBound compress2 "Int32" "offsets" 1 n 1
      (tree_offsets nents leaves) s.
Proof.
  intros n Hnents Hrange.
  set (target := tree_offsets nents leaves).
  assert (Hlen : List.length target = Z.to_nat n).
  { unfold target, tree_offsets. now rewrite length_map, iota_length. }
  unfold write_tree_offsets.
  rewrite (bind_ret _ _ _ _ _
             (resize_partial n 1 target s ltac:(lia) ltac:(lia)
                ltac:(rewrite Hlen; f_equal; lia))).
  set (F := fun j => ((j + 1) * nents, partial n 1 target j)).
  rewrite (bind_ret _ _ _ (F n) s).
  - apply finish_array. unfold F. cbn [snd].
    rewrite <- partial_done. f_equal. f_equal. rewrite Hlen. lia.
  - replace (nents, partial n 1 target 0) with (F 0)
      by (unfold F; f_equal; lia).
    apply (for_lt_local F); [lia|].
    intros j Hj. unfold F at 1.
    rewrite (bind_ret _ _ _ (partial n 1 target (j + 1)) s).
    + rewrite (bind_ret _ _ _ ((j + 1) * nents + nents) s).
      * unfold ret, F. f_equal. f_equal. lia.
      * apply int_add_ok. unfold in_range, INT_MIN, INT_MAX in *. nia.
    + apply store_partial_column; [lia|].
      unfold target, tree_offsets. fold n.
      rewrite nth_error_map, (iota_nth n j Hj). reflexivity.
Qed.

Lemma write_tree_connectivity_array (npoints : Z) (s : stream) :
  0 <= npoints ->
  write_tree_connectivity compressBound compress2 npoints s
  = write_array compressBound compress2 "Int32" "connectivity" 1 npoints 1
      (iota npoints) s.
Proof.
  intros Hn. set (target := iota npoints : list int).
  assert (Hlen : List.length target = Z.to_nat npoints)
    by apply iota_length.
  unfold write_tree_connectivity.
  rewrite (bind_ret _ _ _ _ _
             (resize_partial npoints 1 target s Hn ltac:(lia)
                ltac:(rewrite Hlen; f_equal; lia))).
  rewrite (bind_ret _ _ _ (partial npoints 1 target npoints) s).
  - apply finish_array. rewrite <- partial_done. f_equal. f_equal.
    rewrite Hlen. lia.
  - apply (for_lt_local (fun j => partial npoints 1 target j)); [lia|].
    intros j Hj. apply store_partial_column; [lia|].
    now apply iota_nth.
Qed.

Lemma write_leaf_depths_array (leaves : list Node) (s : stream) :
  Z.of_nat (List.length leaves) <= INT_MAX ->
  write_leaf_depths compressBound compress2 leaves s
  = write_array compressBound compress2 "Int32" "depth" 1
      (Z.of_nat (List.length leaves)) 1 (tree_depths leaves) s.
Proof.
  intros Hmax. set (n := Z.of_nat (List.length leaves)).
  set (target := tree_depths leaves).
  assert (Hlen : List.length target = Z.to_nat n).
  { unfold target, tree_depths, n. rewrite length_map. lia. }
  unfold write_leaf_depths.
  rewrite (int_of_size_small (Z.of_nat (List.length leaves))) by lia.
  fold n.
  rewrite (bind_ret _ _ _ _ _
             (resize_partial n 1 target s ltac:(lia) ltac:(lia)
                ltac:(rewrite Hlen; f_equal; lia))).
  rewrite (bind_ret _ _ _ (partial n 1 target n) s).
  - apply finish_array. rewrite <- partial_done. f_equal. f_equal.
    rewrite Hlen. lia.
  - apply (for_lt_local (fun j => partial n 1 target j)); [lia|].
    intros j Hj.
    destruct (nth_error leaves (Z.to_nat j)) as [leaf|] eqn:E.
    2:{ apply nth_error_None in E. lia. }
    rewrite (bind_ret _ _ _ leaf s) by (apply index_nth; [lia | exact E]).
    apply store_partial_column; [lia|].
    unfold target, tree_depths. now rewrite nth_error_map, E.
Qed.

Lemma write_leaf_ijks_array (leaves : list Node) (s : stream) :
  Z.of_nat (List.length leaves) <= INT_MAX ->
  write_leaf_ijks compressBound compress2 leaves s
  = write_array compressBound compress2 "Int32" "ijk" DIMS
      (Z.of_nat (List.length leaves)) DIMS (tree_ijks leaves) s.
Proof.
  intros Hmax. set (n := Z.of_nat (List.length leaves)).
  set (target := tree_ijks leaves).
  assert (Hlen : List.length target = Z.to_nat (n * DIMS)).
  { unfold target, tree_ijks, n, DIMS.
    rewrite (flat_map_rows_length _ 3) by reflexivity. lia. }
  unfold write_leaf_ijks.
  rewrite (int_of_size_small (Z.of_nat (List.length leaves))) by lia.
  fold n.
  rewrite (bind_ret _ _ _ _ _
             (resize_partial n DIMS target s ltac:(lia) ltac:(unfold DIMS; lia)
                Hlen)).
  rewrite (bind_ret _ _ _ (partial n DIMS target (n * DIMS)) s).
  - apply finish_array. rewrite <- partial_done. f_equal. f_equal.
    rewrite Hlen. unfold n, DIMS. lia.
  - change (partial n DIMS target 0) with (partial n DIMS target (0 * DIMS)).
    apply (for_lt_local (fun j => partial n DIMS target (j * DIMS))); [lia|].
    intros j Hj.
    destruct (nth_error leaves (Z.to_nat j)) as [leaf|] eqn:E.
    2:{ apply nth_error_None in E. lia. }
    rewrite (bind_ret _ _ _ leaf s) by (apply index_nth; [lia | exact E]).
    replace (j * DIMS) with (j * DIMS + 0) by lia.
    replace ((j + 1) * DIMS) with (j * DIMS + DIMS) by lia.
    apply (for_lt_local (fun a => partial n DIMS target (j * DIMS + a)));
      [unfold DIMS; lia|].
    intros a Ha. unfold DIMS in Ha.
    rewrite (bind_ret _ _ _ _ _ (get_component _ a s Ha)).
    replace (j * DIMS + (a + 1)) with (j * DIMS + a + 1) by lia.
    apply store_partial; [lia | unfold DIMS; lia |].
    unfold target, tree_ijks, DIMS.
    replace (Z.to_nat (j * 3 + a)) with (Z.to_nat j * 3 + Z.to_nat a)%nat
      by lia.
    rewrite (nth_error_flat_map_rows _ 3 leaves _ _ leaf);
      [now apply components_nth | reflexivity | exact E | lia].
Qed.

Lemma leaf_corners_length (base : Point) (domain : p3a.box3) (ncorners : Z)
  (leaf : Node) :
  0 <= ncorners <= 8 ->
  List.length (leaf_corners get_block_domain base domain ncorners leaf)
  = Z.to_nat ncorners.
Proof.
  intros Hc. unfold leaf_corners.
  rewrite length_map, length_firstn. simpl List.length. lia.
Qed.

Lemma leaf_rows_length (base : Point) (domain : p3a.box3) (ncorners : Z)
  (leaf : Node) :
  0 <= ncorners <= 8 ->
  List.length
    (flat_map components
       (leaf_corners get_block_domain base domain ncorners leaf))
  = (Z.to_nat ncorners * 3)%nat.
Proof.
  intros Hc.
  rewrite (flat_map_rows_length _ 3) by reflexivity.
  now rewrite leaf_corners_length.
Qed.

(** Component [a] of corner [c] of leaf [k] in the coordinates. *)
Lemma tree_coordinates_nth (base : Point) (domain : p3a.box3) (ncorners : Z)
  (leaves : list Node) (k : nat) (leaf : Node) (c a : Z)
  (corner : p3a.vector3 int) :
  0 <= ncorners <= 8 ->
  nth_error leaves k = Some leaf ->
  0 <= c < ncorners ->
  nth_error vtk_corners (Z.to_nat c) = Some corner ->
  0 <= a < 3 ->
  let box := get_block_domain base (pt leaf) domain in
  nth_error (tree_coordinates get_block_domain base domain ncorners leaves)
    (Z.to_nat ((Z.of_nat k * ncorners + c) * 3 + a))
  = Some (component
            (p3a.add (p3a.lower box)
               (p3a.hadamard_product (p3a.box_extents box) corner)) a).
Proof.
  intros Hn Hleaf Hc Hcorner Ha box. unfold tree_coordinates.
  replace (Z.to_nat ((Z.of_nat k * ncorners + c) * 3 + a))
    with (k * (Z.to_nat ncorners * 3) + (Z.to_nat c * 3 + Z.to_nat a))%nat
    by nia.
  rewrite (nth_error_flat_map_rows _ (Z.to_nat ncorners * 3) leaves _ _ leaf);
    [| intros y; now apply leaf_rows_length | exact Hleaf | nia].
  rewrite (nth_error_flat_map_rows _ 3
             (leaf_corners get_block_domain base domain ncorners leaf) _ _
             (p3a.add (p3a.lower box)
                (p3a.hadamard_product (p3a.box_extents box) corner)));
    [now apply components_nth | reflexivity | | lia].
  unfold leaf_corners. fold box.
  rewrite nth_error_map, nth_error_firstn.
  destruct (Nat.ltb_spec (Z.to_nat c) (Z.to_nat ncorners)); [|lia].
  now rewrite Hcorner.
Qed.

Lemma write_tree_coords_array (base : Point) (leaves : list Node)
  (domain : p3a.box3) (ncorners : Z) (s : stream) :
  let n := Z.of_nat (List.length leaves) in
  0 <= ncorners <= 8 -> n * ncorners <= INT_MAX ->
  write_tree_coords compressBound compress2 get_block_domain base leaves
    domain (n * ncorners) ncorners s
  = write_array compressBound compress2 "Float64" "coordinates" DIMS
      (n * ncorners) DIMS
      (tree_coordinates get_block_domain base domain ncorners leaves) s.
Proof.
  intros n Hc Hmax. set (N := n * ncorners).
  set (target := tree_coordinates get_block_domain base domain ncorners leaves).
  assert (Hlen : List.length target = Z.to_nat (N * DIMS)).
  { unfold target, tree_coordinates, N, n, DIMS.
    rewrite (flat_map_rows_length _ (Z.to_nat ncorners * 3))
      by (intros y; now apply leaf_rows_length).
    nia. }
  unfold write_tree_coords.
  rewrite (bind_ret _ _ _ _ _
             (resize_partial N DIMS target s ltac:(unfold N, n; nia)
                ltac:(unfold DIMS; lia) Hlen)).
  set (F := fun k : nat =>
              (Z.of_nat k * ncorners,
               partial N DIMS target (Z.of_nat k * ncorners * DIMS))).
  rewrite (bind_ret _ _ _ (F (List.length leaves)) s).
  - apply finish_array. unfold F. cbn [snd].
    rewrite <- partial_done. f_equal. f_equal.
    rewrite Hlen. unfold N, n, DIMS. nia.
  - change (0, partial N DIMS target 0) with (F 0%nat).
    apply (for_each_run F _ s leaves 0%nat).
    intros k leaf Hleaf. cbn [Nat.add].
    assert (Hk : (k < List.length leaves)%nat)
      by (apply nth_error_Some; congruence).
    set (box := get_block_domain base (pt leaf) domain).
    set (Fc := fun c : Z =>
                 (Z.of_nat k * ncorners + c,
                  partial N DIMS target
                    ((Z.of_nat k * ncorners + c) * DIMS))).
    replace (F k) with (Fc 0)
      by (unfold F, Fc; rewrite Z.add_0_r; reflexivity).
    replace (F (k + 1)%nat) with (Fc ncorners)
      by (unfold F, Fc;
          replace (Z.of_nat (k + 1) * ncorners)
            with (Z.of_nat k * ncorners + ncorners) by lia;
          reflexivity).
    apply (for_lt_local Fc); [lia|].
    intros c Hcc. unfold Fc at 1.
    destruct (nth_error vtk_corners (Z.to_nat c)) as [corner|] eqn:Ecorner.
    2:{ apply nth_error_None in Ecorner. simpl in Ecorner. lia. }
    rewrite (bind_ret _ _ _ corner s)
      by (apply index_nth; [lia | exact Ecorner]).
    set (idx := Z.of_nat k * ncorners + c).
    assert (Hidx : 0 <= idx < N) by (unfold idx, N, n; nia).
    rewrite (bind_ret _ _ _ (partial N DIMS target (idx * DIMS + DIMS)) s).
    + rewrite (bind_ret _ _ _ (idx + 1) s).
      * unfold ret, Fc. f_equal. f_equal; [unfold idx; lia|].
        f_equal. unfold idx. lia.
      * apply int_add_ok. unfold in_range, INT_MIN, INT_MAX in *.
        unfold N in Hidx. lia.
    + replace (idx * DIMS) with (idx * DIMS + 0) at 1 by lia.
      apply (for_lt_local (fun a => partial N DIMS target (idx * DIMS + a)));
        [unfold DIMS; lia|].
      intros a Ha. unfold DIMS in Ha.
      rewrite (bind_ret _ _ _ _ _ (get_component _ a s Ha)).
      replace (idx * DIMS + (a + 1)) with (idx * DIMS + a + 1) by lia.
      apply store_partial; [lia | unfold DIMS; lia |].
      unfold target, idx, DIMS.
      now apply tree_coordinates_nth.
Qed.

Lemma ipow_ok {S} (b e : Z) (s : S) :
  0 <= e -> in_range (b ^ e) -> ipow b e s = Ret (b ^ e) s.
Proof.
  intros He Hr. unfold ipow.
  destruct (Z.ltb_spec e 0); [lia|]. now apply int_val_ok.
Qed.

Lemma with_stream_congr {S A B} (b1 b2 : M stream A) (k : stream -> M S B)
  (s : S) :
  (forall out, b1 out = b2 out) -> with_stream b1 k s = with_stream b2 k s.
Proof.
  intros E. unfold with_stream. now rewrite E.
Qed.

Lemma corners_of_dim (d : Z) : 0 <= d <= 3 -> 1 <= 2 ^ d <= 8.
Proof.
  intros Hd.
  assert (d = 0 \/ d = 1 \/ d = 2 \/ d = 3) as [E|[E|[E|E]]] by lia;
    subst; simpl; lia.
Qed.

(** The tree snapshot is the document around the six arrays computed from
    the one sequence of leaves that [collect_leaves] returns. *)
Lemma write_tree_document (path : string) (tree : Tree) (domain : p3a.box3)
  (fs : filesystem) :
  let leaves := collect_leaves tree in
  let L := Z.of_nat (List.length leaves) in
  let c := 2 ^ dim tree in
  0 <= dim tree <= 3 ->
  (L + 1) * c <= INT_MAX ->
  write_tree compressBound compress2 collect_leaves get_block_domain
    write_stream path tree domain fs
  = with_stream
      (tree_document compressBound compress2 (L * c) L
         (tree_types (dim tree) leaves) (tree_offsets c leaves)
         (tree_connectivity c leaves)
         (tree_coordinates get_block_domain (base tree) domain c leaves)
         (tree_depths leaves) (tree_ijks leaves))
      (fun stream => write_stream (path ++ ".vtu") stream) fs.
Proof.
  intros leaves L c Hdim Hmax.
  pose proof (corners_of_dim (dim tree) Hdim) as Hc. fold c in Hc.
  assert (HL : 0 <= L) by (unfold L; lia).
  assert (HLmax : L <= INT_MAX) by nia.
  unfold write_tree. apply with_stream_congr. intros out.
  fold leaves. fold L.
  rewrite (int_of_size_small L) by lia.
  rewrite (bind_ret _ _ _ c out).
  2:{ apply ipow_ok; [lia|]. fold c.
      unfold in_range, INT_MIN, INT_MAX in *. lia. }
  rewrite (bind_ret _ _ _ (L * c) out).
  2:{ apply int_mul_ok. unfold in_range, INT_MIN, INT_MAX in *. nia. }
  unfold tree_document.
  repeat (apply bind_congr; [reflexivity | intros _ ?]).
  apply bind_congr; [intros ?; now apply write_tree_types_array | intros _ ?].
  apply bind_congr.
  { intros ?. apply write_tree_offsets_array; [lia|].
    fold L. unfold in_range, INT_MIN, INT_MAX in *. nia. }
  intros _ ?.
  apply bind_congr.
  { intros ?. apply write_tree_connectivity_array. nia. }
  intros _ ?.
  repeat (apply bind_congr; [reflexivity | intros _ ?]).
  apply bind_congr.
  { intros ?. apply write_tree_coords_array; [lia|]. fold L. nia. }
  intros _ ?.
  repeat (apply bind_congr; [reflexivity | intros _ ?]).
  apply bind_congr.
  { intros ?. apply write_leaf_depths_array. fold L. lia. }
  intros _ ?.
  apply bind_congr.
  { intros ?. apply write_leaf_ijks_array. fold L. lia. }
  intros _ ?.
  reflexivity.
Qed.

Lemma block_of_app {A} (l1 l2 l3 : list A) :
  firstn (List.length l2) (skipn (List.length l1) (l1 ++ l2 ++ l3)) = l2.
Proof.
  rewrite skipn_app, skipn_all, Nat.sub_diag. simpl.
  rewrite firstn_app, firstn_all, Nat.sub_diag. simpl.
  apply app_nil_r.
Qed.

Lemma flat_map_block {X Y} (f : X -> list Y) (w : nat) (l : list X)
  (i : nat) (x : X) :
  (forall y, List.length (f y) = w) ->
  nth_error l i = Some x ->
  firstn w (skipn (i * w) (flat_map f l)) = f x.
Proof.
  intros Hw E.
  assert (Hi : (i < List.length l)%nat) by (apply nth_error_Some; congruence).
  rewrite <- (firstn_skipn_middle i l E).
  rewrite flat_map_app. cbn [flat_map].
  replace (i * w)%nat with (List.length (flat_map f (firstn i l))).
  - rewrite <- (Hw x) at 1. apply block_of_app.
  - rewrite (flat_map_rows_length f w) by exact Hw.
    rewrite length_firstn. lia.
Qed.

Lemma seq_from (a b : nat) : seq a b = map (fun j => (a + j)%nat) (seq 0 b).
Proof.
  induction b as [|b IH]; [reflexivity|].
  rewrite !seq_S, map_app, IH. reflexivity.
Qed.

Lemma iota_block (n : Z) (a b : nat) :
  Z.of_nat a + Z.of_nat b <= n ->
  firstn b (skipn a (iota n))
  = map (fun k => Z.of_nat a + k) (iota (Z.of_nat b)).
Proof.
  intros Hn. unfold iota.
  replace (Z.to_nat n) with (a + (b + (Z.to_nat n - a - b)))%nat by lia.
  rewrite !seq_app, !map_app.
  replace a with (List.length (map Z.of_nat (seq 0 a))) at 1
    by now rewrite length_map, length_seq.
  replace b with (List.length (map Z.of_nat (seq (0 + a) b))) at 1
    by now rewrite length_map, length_seq.
  rewrite block_of_app. rewrite Nat2Z.id.
  rewrite (seq_from (0 + a) b), !map_map.
  apply map_ext. intros j. lia.
Qed.

Lemma last_tree_offsets (c : Z) (leaves : list Node) :
  0 < Z.of_nat (List.length leaves) ->
  last (tree_offsets c leaves) 0 = c * Z.of_nat (List.length leaves).
Proof.
  intros HL. unfold tree_offsets.
  set (L := Z.of_nat (List.length leaves)) in *.
  replace L with (L - 1 + 1) at 1 by lia.
  rewrite iota_succ by lia.
  rewrite map_app. cbn [map]. rewrite last_last. lia.
Qed.

(** C7.  For a tree of dimension 3 with [L] leaves (and [8 (L+1)] a value of
    an [int]), the snapshot is the document around these arrays: the offsets
    are [L] entries with [(i+1)*8] at index [i], the last being [8 L]; the
    connectivity is the [8 L] entries [0 .. 8L-1]; the coordinates are
    [8 L] rows of three components. *)
Theorem tree_export_3d (path : string) (tree : Tree) (domain : p3a.box3)
  (fs : filesystem) :
  let leaves := collect_leaves tree in
  let L := Z.of_nat (List.length leaves) in
  let offsets := tree_offsets 8 leaves in
  let connectivity := tree_connectivity 8 leaves in
  let coordinates :=
    tree_coordinates get_block_domain (base tree) domain 8 leaves in
  dim tree = 3 ->
  8 * (L + 1) <= INT_MAX ->
  write_tree compressBound compress2 collect_leaves get_block_domain
    write_stream path tree domain fs
  = with_stream
      (tree_document compressBound compress2 (L * 8) L
         (tree_types 3 leaves) offsets connectivity coordinates
         (tree_depths leaves) (tree_ijks leaves))
      (fun stream => write_stream (path ++ ".vtu") stream) fs
  /\ Z.of_nat (List.length offsets) = L
  /\ (forall i, 0 <= i < L ->
                nth_error offsets (Z.to_nat i) = Some ((i + 1) * 8))
  /\ (0 < L -> last offsets 0 = 8 * L)
  /\ connectivity = iota (8 * L)
  /\ Z.of_nat (List.length connectivity) = 8 * L
  /\ Z.of_nat (List.length coordinates) = 8 * L * DIMS.
Proof.
  intros leaves L offsets connectivity coordinates Hdim Hmax.
  split; [|split; [|split; [|split; [|split; [|split]]]]].
  - pose proof (write_tree_document path tree domain fs) as Hdoc.
    cbv zeta in Hdoc. rewrite Hdim in Hdoc.
    apply Hdoc; [lia|]. fold leaves. fold L. simpl. lia.
  - unfold offsets, tree_offsets. rewrite length_map, iota_length.
    fold L. lia.
  - intros i Hi. unfold offsets, tree_offsets. fold L.
    now rewrite nth_error_map, (iota_nth L i Hi).
  - intros HL. unfold offsets. now apply last_tree_offsets.
  - unfold connectivity, tree_connectivity. fold L. f_equal. lia.
  - unfold connectivity, tree_connectivity. rewrite iota_length.
    fold L. lia.
  - unfold coordinates, tree_coordinates, DIMS.
    rewrite (flat_map_rows_length _ (Z.to_nat 8 * 3))
      by (intros y; apply leaf_rows_length; lia).
    fold leaves. unfold L. lia.
Qed.

(** C6.  The six arrays of a snapshot are computed from the one sequence
    [collect_leaves tree], and they index it alike: for the leaf at index [i],
    entry [i] of the depths is its depth, row [i] of the positions is its
    [ijk], rows [i*c .. (i+1)*c-1] of the coordinates are the [c] corners of
    its box, the connectivity of cell [i] names exactly these rows, and
    offset [i] ends them. *)
Theorem tree_arrays_aligned (path : string) (tree : Tree) (domain : p3a.box3)
  (fs : filesystem) :
  let leaves := collect_leaves tree in
  let L := Z.of_nat (List.length leaves) in
  let c := 2 ^ dim tree in
  let offsets := tree_offsets c leaves in
  let connectivity := tree_connectivity c leaves in
  let coordinates :=
    tree_coordinates get_block_domain (base tree) domain c leaves in
  let depths := tree_depths leaves in
  let ijks := tree_ijks leaves in
  0 <= dim tree <= 3 ->
  (L + 1) * c <= INT_MAX ->
  write_tree compressBound compress2 collect_leaves get_block_domain
    write_stream path tree domain fs
  = with_stream
      (tree_document compressBound compress2 (L * c) L
         (tree_types (dim tree) leaves) offsets connectivity coordinates
         depths ijks)
      (fun stream => write_stream (path ++ ".vtu") stream) fs
  /\ forall (i : nat) (leaf : Node),
       nth_error leaves i = Some leaf ->
       nth_error depths i = Some (depth (pt leaf))
       /\ rows 3 i 1 ijks = components (ijk (pt leaf))
       /\ rows 3 (i * Z.to_nat c) (Z.to_nat c) coordinates
          = flat_map components
              (leaf_corners get_block_domain (base tree) domain c leaf)
       /\ rows 1 (i * Z.to_nat c) (Z.to_nat c) connectivity
          = map (fun k => Z.of_nat i * c + k) (iota c)
       /\ nth_error offsets i = Some ((Z.of_nat i + 1) * c).
Proof.
  intros leaves L c offsets connectivity coordinates depths ijks Hdim Hmax.
  pose proof (corners_of_dim (dim tree) Hdim) as Hc. fold c in Hc.
  split; [now apply write_tree_document|].
  intros i leaf Hleaf.
  assert (Hi : (i < List.length leaves)%nat)
    by (apply nth_error_Some; congruence).
  split; [|split; [|split; [|split]]].
  - unfold depths, tree_depths. now rewrite nth_error_map, Hleaf.
  - unfold rows, ijks, tree_ijks. rewrite Nat.mul_1_l.
    apply (flat_map_block (fun l => components (ijk (pt l))) 3 leaves i leaf);
      [reflexivity | exact Hleaf].
  - unfold rows, coordinates, tree_coordinates.
    rewrite <- Nat.mul_assoc.
    apply (flat_map_block
             (fun l => flat_map components
                         (leaf_corners get_block_domain (base tree) domain c l))
             (Z.to_nat c * 3) leaves i leaf);
      [|exact Hleaf].
    intros y. apply leaf_rows_length. lia.
  - unfold rows, connectivity, tree_connectivity. rewrite !Nat.mul_1_r.
    rewrite iota_block by (fold L; nia).
    rewrite Z2Nat.id by lia.
    apply map_ext. intros k. lia.
  - unfold offsets, tree_offsets. fold L.
    rewrite <- (Nat2Z.id i) at 1.
    rewrite nth_error_map, (iota_nth L (Z.of_nat i)) by (unfold L; lia).
    reflexivity.
Qed.

End TreeProperties.

(* ----------------------------------------------------------------- *)
(** ** The coordinates of a block (C3, C4, C10) *)

Lemma int_rem_ok {S} (a b : Z) (s : S) :
  0 <= a -> 0 < b -> int_rem a b s = Ret (a mod b) s.
Proof.
  intros Ha Hb. unfold int_rem, INT_MIN.
  destruct (Z.eqb_spec b 0); [lia|].
  destruct (Z.eqb_spec a (- 2 ^ 31)); [lia|].
  simpl. unfold ret. now rewrite Z.rem_mod_nonneg by lia.
Qed.

(** The table of the source holds the offsets of the specification. *)
Lemma offset_lookup {S} (p k : Z) (s : S) :
  0 <= p <= 2 -> 0 <= k <= p ->
  (row <- index offset p ;; index row k) s = Ret (offsetTable p k) s.
Proof.
  intros Hp Hk.
  assert (p = 0 \/ p = 1 \/ p = 2) as [E|[E|E]] by lia; subst p.
  - assert (k = 0) by lia. subst k. reflexivity.
  - assert (k = 0 \/ k = 1) as [E|E] by lia; subst k; reflexivity.
  - assert (k = 0 \/ k = 1 \/ k = 2) as [E|[E|E]] by lia; subst k;
      reflexivity.
Qed.

(** The quotient [-2./9.] is the [double] nearest to -2/9: it is
    [-m / 2^55] with [|9 m - 2^56| <= 4], less than half a unit in the last
    place away; [2./9.] is its opposite. *)
Lemma offset_two_ninths :
  offsetTable 2 1 = S754_finite true 8006399337547548 (-55)
  /\ offsetTable 2 2 = S754_finite false 8006399337547548 (-55)
  /\ Z.abs (9 * 8006399337547548 - 2 ^ 56) = 4.
Proof.
  repeat split; vm_compute; reflexivity.
Qed.

Section CoordinateProperties.

Variable compressBound : Z -> Z.
Variable compress2 : Z -> list byte -> Z -> Z * list byte.

(** For a degree of the table, [write_coordinate] encodes the points of the
    formula as one [Float32] array named after the axis. *)
Lemma write_coordinate_array (block : Block) (axis : Z) (s : stream) :
  let p := p (basis block) in
  let n := component (p3a.extents (cell_grid block)) axis in
  let o := component (p3a.lower (domain block)) axis in
  let spacing := component (dx block) axis in
  0 <= p <= 2 -> 0 <= axis < 3 -> 0 <= n ->
  (p + 1) * n + 1 <= INT_MAX ->
  write_coordinate compressBound compress2 block axis s
  = write_array compressBound compress2 "Float32"
      (nth (Z.to_nat axis) axis_name "") 1 ((p + 1) * n + 1) 1
      (coordinate_points p n o spacing) s.
Proof.
  intros p0 n o spacing Hp Haxis Hn Hmax.
  set (num_pts := (p0 + 1) * n + 1).
  set (target := coordinate_points p0 n o spacing).
  assert (Hlen : List.length target = Z.to_nat num_pts).
  { unfold target, coordinate_points. now rewrite length_map, iota_length. }
  assert (Hnum : 0 <= num_pts) by (unfold num_pts; nia).
  unfold write_coordinate. fold p0.
  rewrite (bind_ret _ _ _ (p0 + 1) s)
    by (apply int_add_ok; unfold in_range, INT_MIN, INT_MAX; lia).
  rewrite (bind_ret _ _ _ _ _ (get_component _ axis s Haxis)). fold n.
  rewrite (bind_ret _ _ _ ((p0 + 1) * n) s)
    by (apply int_mul_ok; unfold in_range, INT_MIN, INT_MAX in *; nia).
  rewrite (bind_ret _ _ _ num_pts s)
    by (apply int_add_ok; unfold in_range, INT_MIN, INT_MAX in *;
        fold num_pts; lia).
  rewrite (bind_ret _ _ _ _ _ (get_component _ axis s Haxis)). fold o.
  rewrite (bind_ret _ _ _ _ _ (get_component _ axis s Haxis)). fold spacing.
  rewrite (bind_ret _ _ _ _ _
             (resize_partial num_pts 1 target s Hnum ltac:(lia)
                ltac:(rewrite Hlen; f_equal; lia))).
  rewrite (bind_ret _ _ _ (partial num_pts 1 target num_pts) s).
  - rewrite (bind_ret _ _ _ (nth (Z.to_nat axis) axis_name "") s).
    + apply finish_array. rewrite <- partial_done. f_equal. f_equal.
      rewrite Hlen. lia.
    + apply index_nth; [lia|]. apply nth_error_nth'. simpl. lia.
  - apply (for_lt_local (fun j => partial num_pts 1 target j)); [lia|].
    intros j Hj.
    rewrite (bind_ret _ _ _ _ _ (int_rem_ok j (p0 + 1) s ltac:(lia)
                                   ltac:(lia))).
    assert (Hmod : 0 <= j mod (p0 + 1) <= p0).
    { pose proof (Z.mod_pos_bound j (p0 + 1) ltac:(lia)). lia. }
    pose proof (offset_lookup (S := stream) p0 (j mod (p0 + 1)) s Hp Hmod)
      as Hoff.
    unfold bind in Hoff. unfold bind at 1.
    destruct (index offset p0 s) as [row s1|e s1|] eqn:Erow;
      try discriminate.
    assert (s1 = s).
    { unfold index in Erow. destruct (p0 <? 0); [discriminate|].
      destruct (nth_error offset (Z.to_nat p0)); [|discriminate].
      now inversion Erow. }
    subst s1. rewrite (bind_ret _ _ _ _ _ Hoff).
    apply store_partial_column; [lia|].
    unfold target, coordinate_points. fold num_pts.
    rewrite nth_error_map, (iota_nth num_pts j Hj). reflexivity.
Qed.

Lemma coordinate_points_length (p n : Z) (o spacing : double) :
  0 <= (p + 1) * n + 1 ->
  Z.of_nat (List.length (coordinate_points p n o spacing)) = (p + 1) * n + 1.
Proof.
  intros H. unfold coordinate_points. rewrite length_map, iota_length. lia.
Qed.

Lemma coordinate_points_nth (p n : Z) (o spacing : double) (i : Z) :
  0 <= i < (p + 1) * n + 1 ->
  nth_error (coordinate_points p n o spacing) (Z.to_nat i)
  = Some (float_of_double (coordinate_formula p o spacing i)).
Proof.
  intros Hi. unfold coordinate_points.
  now rewrite nth_error_map, (iota_nth _ i Hi).
Qed.

(** C4.  For a block of degree [p] in 0, 1, 2 and an axis with [n] cells
    (and [(p+1)*n+1] a value of an [int]), the coordinate array of the axis
    has exactly [(p+1)*n+1] entries, and entry [i] holds
    [o + i*dx + offsetTable[p][i mod (p+1)]*dx] with [dx = spacing/(p+1)],
    computed in [double] and stored in the [float] array; the table of the
    source has the rows 0 0 0, 0 0 0 and 0, -2/9, 2/9. *)
Theorem coordinate_array (block : Block) (axis : Z) (s : stream) :
  let p := p (basis block) in
  let n := component (p3a.extents (cell_grid block)) axis in
  let o := component (p3a.lower (domain block)) axis in
  let spacing := component (dx block) axis in
  let dx := ddiv spacing (double_of_int (p + 1)) in
  let points := coordinate_points p n o spacing in
  0 <= p <= 2 -> 0 <= axis < 3 -> 0 <= n ->
  (p + 1) * n + 1 <= INT_MAX ->
  write_coordinate compressBound compress2 block axis s
  = write_array compressBound compress2 "Float32"
      (nth (Z.to_nat axis) axis_name "") 1 ((p + 1) * n + 1) 1 points s
  /\ Z.of_nat (List.length points) = (p + 1) * n + 1
  /\ (forall i, 0 <= i < (p + 1) * n + 1 ->
                nth_error points (Z.to_nat i)
                = Some (float_of_double
                          (dadd (dadd o (dmul (double_of_int i) dx))
                             (dmul (offsetTable p (i mod (p + 1))) dx))))
  /\ offset = [ [d0; d0; d0];
                [d0; d0; d0];
                [d0; ddiv (dneg d2) d9; ddiv d2 d9] ]
  /\ (forall q k, 0 <= q <= 2 -> 0 <= k <= 2 ->
                  nth (Z.to_nat k) (nth (Z.to_nat q) offset []) d0
                  = offsetTable q k).
Proof.
  intros p0 n o spacing dx0 points Hp Haxis Hn Hmax.
  split; [now apply write_coordinate_array|].
  split; [apply coordinate_points_length; nia|].
  split; [intros i Hi; now apply coordinate_points_nth|].
  split; [reflexivity|].
  intros q0 k Hq Hk.
  assert (q0 = 0 \/ q0 = 1 \/ q0 = 2) as [E|[E|E]] by lia; subst q0;
    (assert (k = 0 \/ k = 1 \/ k = 2) as [E|[E|E]] by lia; subst k;
     reflexivity).
Qed.

(** C10.  The points of an axis are computed in [double] by the formula and
    assigned to a [float] array: the array is declared [Float32], every entry
    is the [double] result rounded to binary32, every entry takes four bytes
    of the encoded buffer, and the rounding is not the identity (point 1 of
    a unit cell of degree 2 is not a binary32 number). *)
Theorem coordinates_are_single (block : Block) (axis : Z) (s : stream) :
  let p := p (basis block) in
  let n := component (p3a.extents (cell_grid block)) axis in
  let o := component (p3a.lower (domain block)) axis in
  let spacing := component (dx block) axis in
  let num_pts := (p + 1) * n + 1 in
  let points := coordinate_points p n o spacing in
  0 <= p <= 2 -> 0 <= axis < 3 -> 0 <= n ->
  num_pts <= INT_MAX ->
  write_coordinate compressBound compress2 block axis s
  = (write_data_start "Float32" (nth (Z.to_nat axis) axis_name "") 1 ;;
     write_data compressBound compress2 (host_array num_pts 1 points) false ;;
     write_data_end) s
  /\ (forall i, 0 <= i < num_pts ->
                nth_error points (Z.to_nat i)
                = Some (single (round_single
                                  (coordinate_formula p o spacing i))))
  /\ Z.of_nat (List.length (data (h_view (host_array num_pts 1 points))))
     = 4 * num_pts
  /\ round_single (coordinate_formula 2 d0 d1 1)
     <> coordinate_formula 2 d0 d1 1.
Proof.
  intros p0 n o spacing num_pts points Hp Haxis Hn Hmax.
  split; [now apply write_coordinate_array|].
  split; [intros i Hi; now apply coordinate_points_nth|].
  split.
  - rewrite data_length. cbn [h_view host_array elems].
    unfold points. rewrite coordinate_points_length by (fold num_pts; nia).
    reflexivity.
  - vm_compute. discriminate.
Qed.

Lemma int_val_inv {S} (v a : Z) (s s' : S) :
  int_val v s = Ret a s' -> a = v /\ s' = s /\ in_range v.
Proof.
  unfold int_val, in_int, in_range.
  destruct (Z.leb_spec INT_MIN v); destruct (Z.leb_spec v INT_MAX);
    simpl; intros E; inversion E; subst; auto.
Qed.

Lemma get_inv {S A} (v : p3a.vector3 A) (axis : Z) (a : A) (s s' : S) :
  p3a.get v axis s = Ret a s' -> a = component v axis /\ s' = s.
Proof.
  unfold p3a.get, component.
  destruct (axis =? 0); [intros E; inversion E; auto|].
  destruct (axis =? 1); [intros E; inversion E; auto|].
  destruct (axis =? 2); intros E; inversion E; auto.
Qed.

Lemma bind_undef_cases {S A B} (m : M S A) (k : A -> M S B) (s : S) :
  quiet m ->
  (forall a s', m s = Ret a s' -> k a s' = Undef) ->
  bind m k s = Undef.
Proof.
  intros Hq Hk. unfold bind.
  destruct (m s) as [a s'|e s'|] eqn:E.
  - now apply Hk.
  - exfalso. exact (Hq s e s' E).
  - reflexivity.
Qed.

Lemma for_lt_first_undef {S A} (body : Z -> A -> M S A) (n : Z) (a : A)
  (s : S) :
  1 <= n -> body 0 a s = Undef -> for_lt n body a s = Undef.
Proof.
  intros Hn E. unfold for_lt.
  destruct (Z.to_nat n) as [|k] eqn:Ek; [lia|].
  simpl. now apply bind_undef.
Qed.

Lemma int_rem_ret {S} (a b : Z) (s : S) :
  0 <= a -> b <> 0 -> int_rem a b s = Ret (Z.rem a b) s.
Proof.
  intros Ha Hb. unfold int_rem, INT_MIN.
  destruct (Z.eqb_spec b 0); [lia|].
  destruct (Z.eqb_spec a (- 2 ^ 31)); [lia|].
  reflexivity.
Qed.

Lemma index_outside {S A} (a : list A) (i : Z) (s : S) :
  i < 0 \/ Z.of_nat (List.length a) <= i -> index a i s = Undef.
Proof.
  intros Hi. unfold index.
  destruct (Z.ltb_spec i 0); [reflexivity|].
  assert (E : nth_error a (Z.to_nat i) = None)
    by (apply nth_error_None; lia).
  now rewrite E.
Qed.

(** The entry of the table that an iteration reads: the offset of the
    specification for the degrees 0, 1 and 2, and nothing that the language
    defines for any other degree ([p = -1] takes a remainder by zero, every
    other degree indexes a row that the table does not have). *)
Lemma table_entry_cases {S} (p i : Z) (s : S) :
  0 <= i ->
  (0 <= p <= 2 ->
   table_entry p i s = Ret (offsetTable p (i mod (p + 1))) s)
  /\ (p < 0 \/ 2 < p -> table_entry p i s = Undef).
Proof.
  intros Hi. unfold table_entry. split.
  - intros Hp.
    rewrite (bind_ret _ _ _ _ _ (int_rem_ok i (p + 1) s Hi ltac:(lia))).
    apply offset_lookup; [lia|].
    pose proof (Z.mod_pos_bound i (p + 1) ltac:(lia)). lia.
  - intros Hp. destruct (Z.eq_dec (p + 1) 0) as [E|E].
    + apply bind_undef. rewrite E. unfold int_rem. reflexivity.
    + rewrite (bind_ret _ _ _ _ _ (int_rem_ret i (p + 1) s Hi E)).
      apply bind_undef. apply index_outside. simpl. lia.
Qed.

(** Outside the table.  For a degree that is not 0, 1 or 2, a call that
    computes at least one point evaluates [offset[p][0 % (p+1)]] in its
    first iteration. *)
Lemma write_coordinate_outside_table (block : Block) (axis : Z)
  (s : stream) :
  let p := p (basis block) in
  let n := component (p3a.extents (cell_grid block)) axis in
  p < 0 \/ 2 < p -> 1 <= (p + 1) * n + 1 ->
  write_coordinate compressBound compress2 block axis s = Undef.
Proof.
  intros p0 n Hp Hn. unfold write_coordinate. fold p0.
  apply bind_undef_cases; [auto with cxx|].
  intros p1 s1 E1. apply int_val_inv in E1 as (-> & -> & Hr1).
  apply bind_undef_cases; [auto with cxx|].
  intros cells s1 E2. apply get_inv in E2 as (-> & ->). fold n.
  apply bind_undef_cases; [auto with cxx|].
  intros m s1 E3. apply int_val_inv in E3 as (-> & -> & Hr3).
  apply bind_undef_cases; [auto with cxx|].
  intros num_pts s1 E4. apply int_val_inv in E4 as (-> & -> & Hr4).
  apply bind_undef_cases; [auto with cxx|].
  intros o s1 E5. apply get_inv in E5 as (-> & ->).
  apply bind_undef_cases; [auto with cxx|].
  intros bdx s1 E6. apply get_inv in E6 as (-> & ->).
  apply bind_undef_cases; [auto with cxx|].
  intros coord s1 _.
  apply bind_undef. apply for_lt_first_undef; [exact Hn|].
  destruct (Z.eq_dec (p0 + 1) 0) as [E|E].
  - apply bind_undef. rewrite E. unfold int_rem. reflexivity.
  - rewrite (bind_ret _ _ _ _ _
               (int_rem_ret 0 (p0 + 1) s1 ltac:(lia) E)).
    apply bind_undef. apply index_outside. simpl. lia.
Qed.

(** A degree outside the table with no point to compute: at [p = -2] an axis
    of one cell has [(p+1)*1 + 1 = 0] points, the loop does not run, and the
    empty array is encoded. *)
Lemma write_coordinate_no_points (block : Block) (axis : Z) (s : stream) :
  p (basis block) = -2 ->
  component (p3a.extents (cell_grid block)) axis = 1 ->
  0 <= axis < 3 ->
  write_coordinate compressBound compress2 block axis s
  = write_array compressBound compress2 "Float32"
      (nth (Z.to_nat axis) axis_name "") 1 0 1 (@nil float) s.
Proof.
  intros Hp Hn Haxis. unfold write_coordinate. rewrite Hp.
  rewrite (bind_ret _ _ _ (-1) s) by (apply int_add_ok; unfold in_range, INT_MIN, INT_MAX; lia).
  rewrite (bind_ret _ _ _ _ _ (get_component _ axis s Haxis)). rewrite Hn.
  rewrite (bind_ret _ _ _ (-1) s) by (apply int_mul_ok; unfold in_range, INT_MIN, INT_MAX; lia).
  rewrite (bind_ret _ _ _ 0 s) by (apply int_add_ok; unfold in_range, INT_MIN, INT_MAX; lia).
  rewrite (bind_ret _ _ _ _ _ (get_component _ axis s Haxis)).
  rewrite (bind_ret _ _ _ _ _ (get_component _ axis s Haxis)).
  rewrite (bind_ret _ _ _ _ _
             (resize_partial 0 1 (@nil float) s ltac:(lia) ltac:(lia)
                eq_refl)).
  rewrite (bind_ret _ _ _ (partial 0 1 (@nil float) 0) s)
    by (apply for_lt_none; lia).
  rewrite (bind_ret _ _ _ (nth (Z.to_nat axis) axis_name "") s).
  - apply finish_array. exact (partial_done 0 1 (@nil float)).
  - apply index_nth; [lia|]. apply nth_error_nth'. simpl. lia.
Qed.

(** C3, as amended.  [write_coordinate] does not check the degree and has
    no degree error to raise.  The degrees 0, 1 and 2 are those of the
    table: for them the call encodes the points of the formula, and the
    entry [offset[p][i % (p+1)]] that iteration [i] reads is the offset of
    the specification.  For every other degree, negative ones included, that
    entry is not defined by the language (a row that the table does not
    have, or at [p = -1] a remainder by zero), so that a call that computes
    at least one point has undefined behaviour: nothing is promised about
    it, neither an error nor the absence of an array.  A call that computes
    no point is defined and silent: at [p = -2] with one cell on the axis
    the empty array is encoded. *)
Theorem write_coordinate_degree (block : Block) (axis : Z) (s : stream) :
  let p := p (basis block) in
  let n := component (p3a.extents (cell_grid block)) axis in
  let o := component (p3a.lower (domain block)) axis in
  let spacing := component (dx block) axis in
  (0 <= p <= 2 -> 0 <= axis < 3 -> 0 <= n -> (p + 1) * n + 1 <= INT_MAX ->
   write_coordinate compressBound compress2 block axis s
   = write_array compressBound compress2 "Float32"
       (nth (Z.to_nat axis) axis_name "") 1 ((p + 1) * n + 1) 1
       (coordinate_points p n o spacing) s)
  /\ (forall i, 0 <= i ->
      (0 <= p <= 2 ->
       table_entry p i s = Ret (offsetTable p (i mod (p + 1))) s)
      /\ (p < 0 \/ 2 < p -> table_entry p i s = Undef))
  /\ (p < 0 \/ 2 < p -> 1 <= (p + 1) * n + 1 ->
      write_coordinate compressBound compress2 block axis s = Undef)
  /\ (p = -2 -> n = 1 -> 0 <= axis < 3 ->
      write_coordinate compressBound compress2 block axis s
      = write_array compressBound compress2 "Float32"
          (nth (Z.to_nat axis) axis_name "") 1 0 1 (@nil float) s).
Proof.
  intros p0 n o spacing.
  split; [now apply write_coordinate_array|].
  split; [intros i Hi; now apply table_entry_cases|].
  split; [now apply write_coordinate_outside_table|].
  now apply write_coordinate_no_points.
Qed.

End CoordinateProperties.

(* ----------------------------------------------------------------- *)
(** ** A failing backend (C9) *)

Section FailureProperties.

Variable compressBound : Z -> Z.
Variable compress2 : Z -> list byte -> Z -> Z * list byte.
Variable collect_leaves : Tree -> list Node.
Variable get_block_domain : Point -> Point -> p3a.box3 -> p3a.box3.
Variable write_stream : string -> stream -> M filesystem unit.
Variable scientific12 : double -> string.

Lemma write_data_aborts {T} `{Scalar T} (dual : VizView T) (copy : bool) :
  (forall capacity source level,
      fst (compress2 capacity source level) <> Z_OK) ->
  aborts zlib_error (write_data compressBound compress2 dual copy).
Proof.
  intros Hbad s.
  rewrite (write_data_fails compressBound compress2 dual copy s);
    [reflexivity | apply Hbad].
Qed.

Lemma write_coordinate_aborts (block : Block) (axis : Z) :
  (forall capacity source level,
      fst (compress2 capacity source level) <> Z_OK) ->
  aborts zlib_error (write_coordinate compressBound compress2 block axis).
Proof.
  intros Hbad. unfold write_coordinate.
  repeat (apply aborts_bind_r; [solve [quiet_steps] | intros ?]).
  apply aborts_bind_l. now apply write_data_aborts.
Qed.

(** With a backend that always fails, the start of a block file never
    returns: the first coordinate array throws. *)
Lemma write_vtr_start_aborts (block : Block) (time : double) (step : Z) :
  (forall capacity source level,
      fst (compress2 capacity source level) <> Z_OK) ->
  aborts zlib_error
    (write_vtr_start compressBound compress2 scientific12 block time step).
Proof.
  intros Hbad. unfold write_vtr_start.
  repeat (apply aborts_bind_r; [solve [quiet_steps] | intros ?]).
  apply aborts_bind_l. unfold write_coordinates.
  apply aborts_bind_r; [auto with cxx | intros ?].
  apply aborts_bind_l. now apply write_coordinate_aborts.
Qed.

Lemma write_array_ok {T} `{Scalar T} (type name : string) (ncomps n0 n1 : Z)
  (xs : list T) (s : stream) :
  array_status compressBound compress2 n0 n1 xs = Z_OK ->
  exists text,
    write_array compressBound compress2 type name ncomps n0 n1 xs s
    = Ret tt (s ++ text).
Proof.
  intros Hok. unfold write_array.
  rewrite (bind_ret _ _ _ _ _ (write_data_start_text type name ncomps s)).
  destruct (write_data_cases compressBound compress2 (host_array n0 n1 xs)
              false (s ++ data_start_text type name ncomps))
    as [[text E]|E].
  - rewrite (bind_ret _ _ _ _ _ E). unfold write_data_end, put.
    eexists. rewrite !append_assoc. reflexivity.
  - exfalso. revert E. unfold write_data.
    unfold array_status, backend_call in Hok. cbn [h_view host_array].
    destruct (compress2 _ _ _) as [r c]. cbn [fst] in Hok. subst r.
    rewrite Z.eqb_refl. cbn [negb]. unfold bind, put. discriminate.
Qed.

Lemma write_array_fails {T} `{Scalar T} (type name : string)
  (ncomps n0 n1 : Z) (xs : list T) (s : stream) :
  array_status compressBound compress2 n0 n1 xs <> Z_OK ->
  write_array compressBound compress2 type name ncomps n0 n1 xs s
  = Throw zlib_error (s ++ data_start_text type name ncomps).
Proof.
  intros Hbad. unfold write_array.
  rewrite (bind_ret _ _ _ _ _ (write_data_start_text type name ncomps s)).
  apply bind_throw. now apply write_data_fails.
Qed.

Lemma write_vtu_header_returns (s : stream) :
  exists text, write_vtu_header s = Ret tt (s ++ text).
Proof.
  unfold write_vtu_header, bind, put. eexists.
  rewrite !append_assoc. reflexivity.
Qed.

(** The document of a snapshot throws as soon as the encoding of one of its
    arrays fails. *)
Lemma tree_document_throws (npoints nleaves : Z) (types : list int8_t)
  (offsets connectivity : list int) (coordinates : list double)
  (depths ijks : list int) (s : stream) :
  array_status compressBound compress2 nleaves 1 types <> Z_OK
  \/ array_status compressBound compress2 nleaves 1 offsets <> Z_OK
  \/ array_status compressBound compress2 npoints 1 connectivity <> Z_OK
  \/ array_status compressBound compress2 npoints DIMS coordinates <> Z_OK
  \/ array_status compressBound compress2 nleaves 1 depths <> Z_OK
  \/ array_status compressBound compress2 nleaves DIMS ijks <> Z_OK ->
  exists out,
    tree_document compressBound compress2 npoints nleaves types offsets
      connectivity coordinates depths ijks s
    = Throw zlib_error out.
Proof.
  intros Hsome. unfold tree_document.
  destruct (write_vtu_header_returns s) as [t0 E0].
  rewrite (bind_ret _ _ _ _ _ E0).
  repeat match goal with
         | |- exists out, bind (put ?t) ?k ?s0 = _ =>
             change (bind (put t) k s0) with (k tt (s0 ++ t)); cbv beta
         | |- exists out,
               bind (write_array _ _ ?ty ?nm ?nc ?n0 ?n1 ?xs) _ ?s0 = _ =>
             let Hok := fresh "Hok" in
             let Hbad := fresh "Hbad" in
             let E := fresh "E" in
             destruct (Z.eq_dec (array_status compressBound compress2 n0 n1 xs)
                         Z_OK) as [Hok|Hbad];
             [ destruct (write_array_ok ty nm nc n0 n1 xs s0 Hok) as [? E];
               rewrite (bind_ret _ _ _ _ _ E); clear E
             | rewrite (bind_throw _ _ _ _ _
                          (write_array_fails ty nm nc n0 n1 xs s0 Hbad));
               eexists; reflexivity ]
         end.
  exfalso. tauto.
Qed.

(** C9.  When the backend returns a status other than [Z_OK] for an array,
    [write_data] throws its error and leaves the stream as it was: no byte
    of the header nor of the payload is written.  [write_field] then throws
    with only the opening element of the array on the stream, and
    [write_tree], when the encoding of one of its six arrays fails, throws
    and leaves the file system as it was: the snapshot is not written. *)
Theorem compression_failure_aborts :
  (forall T (HT : Scalar T) (dual : VizView T) (copy : bool) (out : stream),
      fst (backend_call compressBound compress2
             (h_view (if copy then sync_host dual else dual))) <> Z_OK ->
      write_data compressBound compress2 dual copy out
      = Throw zlib_error out)
  /\ (forall T (HT : Scalar T) (HV : VtkType T) (name : string)
        (f : VizView T) (out : stream),
        fst (backend_call compressBound compress2 (h_view (sync_host f)))
        <> Z_OK ->
        write_field compressBound compress2 name f out
        = Throw zlib_error
            (out ++ data_start_text (vtk_type_name (T := T)) name
                      (int_of_size (extent1 (d_view f)))))
  /\ (forall (path : string) (tree : Tree) (domain : p3a.box3)
        (fs : filesystem),
        let leaves := collect_leaves tree in
        let L := Z.of_nat (List.length leaves) in
        let c := 2 ^ dim tree in
        0 <= dim tree <= 3 ->
        (L + 1) * c <= INT_MAX ->
        array_status compressBound compress2 L 1
          (tree_types (dim tree) leaves) <> Z_OK
        \/ array_status compressBound compress2 L 1 (tree_offsets c leaves)
           <> Z_OK
        \/ array_status compressBound compress2 (L * c) 1
             (tree_connectivity c leaves) <> Z_OK
        \/ array_status compressBound compress2 (L * c) DIMS
             (tree_coordinates get_block_domain (base tree) domain c leaves)
           <> Z_OK
        \/ array_status compressBound compress2 L 1 (tree_depths leaves)
           <> Z_OK
        \/ array_status compressBound compress2 L DIMS (tree_ijks leaves)
           <> Z_OK ->
        write_tree compressBound compress2 collect_leaves get_block_domain
          write_stream path tree domain fs
        = Throw zlib_error fs)
  /\ ((forall capacity source level,
          fst (compress2 capacity source level) <> Z_OK) ->
      forall (block : Block) (time : double) (step : Z) (out : stream),
        match write_vtr_start compressBound compress2 scientific12 block time
                step out with
        | Ret _ _ => False
        | Throw e _ => e = zlib_error
        | Undef => True
        end).
Proof.
  split; [|split; [|split]].
  - intros T HT dual copy out Hbad. now apply write_data_fails.
  - intros T HT HV name f out Hbad. unfold write_field.
    rewrite (bind_ret _ _ _ _ _ (write_data_start_text _ name _ out)).
    apply bind_throw. now apply write_data_fails.
  - intros path tree domain fs leaves L c Hdim Hmax Hsome.
    rewrite (write_tree_document compressBound compress2 collect_leaves
               get_block_domain write_stream path tree domain fs Hdim Hmax).
    fold leaves. fold L. fold c.
    destruct (tree_document_throws (L * c) L _ _ _ _ _ _ "" Hsome)
      as [out E].
    unfold with_stream. now rewrite E.
  - intros Hbad block time step out.
    exact (write_vtr_start_aborts block time step Hbad out).
Qed.

End FailureProperties.

(* ----------------------------------------------------------------- *)
(** ** Base64 and the reader (C2) *)

Lemma digits_checked :
  forallb (fun k =>
             match base64.value (base64.digit (N.of_nat k)) with
             | Some v => (v =? N.of_nat k)%N
             | None => false
             end
             && negb (Ascii.eqb (base64.digit (N.of_nat k)) base64.pad))
    (seq 0 64) = true.
Proof.
  vm_compute. reflexivity.
Qed.

Lemma value_digit (n : N) :
  (n < 64)%N ->
  base64.value (base64.digit n) = Some n
  /\ Ascii.eqb (base64.digit n) base64.pad = false.
Proof.
  intros Hn.
  pose proof (proj1 (forallb_forall _ _) digits_checked (N.to_nat n)) as H.
  cbv beta in H. rewrite N2Nat.id in H.
  assert (Hin : In (N.to_nat n) (seq 0 64)) by (apply in_seq; lia).
  specialize (H Hin). apply andb_prop in H. destruct H as [H1 H2].
  destruct (base64.value (base64.digit n)) as [v|]; [|discriminate].
  apply N.eqb_eq in H1. subst v.
  split; [reflexivity | now apply negb_true_iff].
Qed.

Lemma byte_of_N_mod (x : N) (b : byte) :
  (x mod 256 = Byte.to_N b)%N -> byte_of_N x = b.
Proof.
  intros E. unfold byte_of_N. now rewrite E, Byte.of_to_N.
Qed.

Arguments base64.value : simpl never.
Arguments base64.digit : simpl never.

(** Arithmetic on the digits of a group. *)
Ltac group_arith := zify; Z.to_euclidean_division_equations; lia.

Lemma decode_encode_bounded (n : nat) (bs : list byte) :
  (List.length bs <= n)%nat -> base64.decode (base64.encode bs) = Some bs.
Proof.
  revert bs. induction n as [|n IH]; intros bs Hlen.
  - destruct bs; [reflexivity | simpl in Hlen; lia].
  - destruct bs as [|a [|b [|c rest]]].
    + reflexivity.
    + pose proof (Byte.to_N_bounded a) as Ha.
      cbn [base64.encode base64.decode].
      destruct (value_digit (Byte.to_N a * 65536 / 262144)) as [E0 _];
        [group_arith|].
      destruct (value_digit (Byte.to_N a * 65536 / 4096 mod 64)) as [E1 _];
        [group_arith|].
      rewrite E0, E1.
      replace (Ascii.eqb base64.pad base64.pad) with true by reflexivity.
      do 2 f_equal. apply byte_of_N_mod. group_arith.
    + pose proof (Byte.to_N_bounded a) as Ha.
      pose proof (Byte.to_N_bounded b) as Hb.
      cbn [base64.encode base64.decode].
      set (g := (Byte.to_N a * 65536 + Byte.to_N b * 256)%N).
      destruct (value_digit (g / 262144)) as [E0 _];
        [unfold g; group_arith|].
      destruct (value_digit (g / 4096 mod 64)) as [E1 _];
        [unfold g; group_arith|].
      destruct (value_digit (g / 64 mod 64)) as [E2 P2];
        [unfold g; group_arith|].
      rewrite E0, E1, E2, P2.
      replace (Ascii.eqb base64.pad base64.pad) with true by reflexivity.
      f_equal. f_equal; [|f_equal]; apply byte_of_N_mod; unfold g;
        group_arith.
    + pose proof (Byte.to_N_bounded a) as Ha.
      pose proof (Byte.to_N_bounded b) as Hb.
      pose proof (Byte.to_N_bounded c) as Hc.
      cbn [base64.encode base64.decode].
      set (g := (Byte.to_N a * 65536 + Byte.to_N b * 256 + Byte.to_N c)%N).
      destruct (value_digit (g / 262144)) as [E0 _];
        [unfold g; group_arith|].
      destruct (value_digit (g / 4096 mod 64)) as [E1 _];
        [unfold g; group_arith|].
      destruct (value_digit (g / 64 mod 64)) as [E2 _];
        [unfold g; group_arith|].
      destruct (value_digit (g mod 64)) as [E3 P3];
        [unfold g; group_arith|].
      rewrite E0, E1, E2, E3, P3.
      rewrite (IH rest) by (simpl in Hlen; lia).
      f_equal. f_equal; [|f_equal; [|f_equal]]; apply byte_of_N_mod;
        unfold g; group_arith.
Qed.

(** Decoding inverts encoding. *)
Lemma decode_encode (bs : list byte) :
  base64.decode (base64.encode bs) = Some bs.
Proof.
  apply (decode_encode_bounded (List.length bs)). lia.
Qed.

Lemma encode_length_bounded (n : nat) (bs : list byte) :
  (List.length bs <= n)%nat ->
  String.length (base64.encode bs) = encoded_length (List.length bs).
Proof.
  revert bs. induction n as [|n IH]; intros bs Hlen.
  - destruct bs; [reflexivity | simpl in Hlen; lia].
  - destruct bs as [|a [|b [|c rest]]]; try reflexivity.
    cbn [base64.encode String.length List.length].
    rewrite (IH rest) by (simpl in Hlen; lia).
    unfold encoded_length.
    replace (Datatypes.S (Datatypes.S (Datatypes.S (List.length rest))) + 2)%nat
      with (1 * 3 + (List.length rest + 2))%nat by lia.
    rewrite Nat.div_add_l by lia. lia.
Qed.

Lemma encode_length (bs : list byte) :
  String.length (base64.encode bs) = encoded_length (List.length bs).
Proof.
  apply (encode_length_bounded (List.length bs)). lia.
Qed.

Lemma firstn_chunk {A} (n : nat) (l r : list A) :
  List.length l = n -> firstn n (l ++ r) = l.
Proof.
  intros <-. rewrite firstn_app, firstn_all, Nat.sub_diag. simpl.
  apply app_nil_r.
Qed.

Lemma skipn_chunk {A} (n : nat) (l r : list A) :
  List.length l = n -> skipn n (l ++ r) = r.
Proof.
  intros <-. rewrite skipn_app, skipn_all, Nat.sub_diag. reflexivity.
Qed.

Lemma le_value_word (w : Z) :
  0 <= w < 2 ^ 64 -> Z.of_N (le_value (le_bytes 8 (Z.to_N w))) = w.
Proof.
  intros Hw. rewrite le_value_le_bytes.
  change (256 ^ N.of_nat 8)%N with 18446744073709551616%N.
  rewrite N.mod_small; lia.
Qed.

(** The words of a header are read back from its 32 bytes. *)
Lemma header_words_of_bytes (a b c d : Z) :
  0 <= a < 2 ^ 64 -> 0 <= b < 2 ^ 64 -> 0 <= c < 2 ^ 64 -> 0 <= d < 2 ^ 64 ->
  header_words (header_bytes [a; b; c; d]) = [a; b; c; d].
Proof.
  intros Ha Hb Hc Hd. unfold header_words, header_bytes.
  cbn [flat_map map].
  set (A := le_bytes 8 (Z.to_N a)). set (B := le_bytes 8 (Z.to_N b)).
  set (C := le_bytes 8 (Z.to_N c)). set (D := le_bytes 8 (Z.to_N d)).
  assert (HA : List.length A = 8%nat) by apply le_bytes_length.
  assert (HB : List.length B = 8%nat) by apply le_bytes_length.
  assert (HC : List.length C = 8%nat) by apply le_bytes_length.
  assert (HD : List.length D = 8%nat) by apply le_bytes_length.
  change (8 * 0)%nat with 0%nat. change (8 * 1)%nat with 8%nat.
  change (8 * 2)%nat with (8 + 8)%nat.
  change (8 * 3)%nat with (8 + (8 + 8))%nat.
  rewrite <- !skipn_skipn. rewrite skipn_O.
  rewrite !(skipn_chunk 8 A) by exact HA.
  rewrite !(skipn_chunk 8 B) by exact HB.
  rewrite !(skipn_chunk 8 C) by exact HC.
  rewrite (firstn_chunk 8 A), (firstn_chunk 8 B), (firstn_chunk 8 C),
    (firstn_chunk 8 D) by assumption.
  unfold A, B, C, D. now rewrite !le_value_word.
Qed.

Lemma string_eqb_refl (a : string) : String.eqb a a = true.
Proof.
  apply String.eqb_eq. reflexivity.
Qed.

Lemma bytes_view_data (buf : list byte) : data (h_view (bytes_view buf)) = buf.
Proof.
  unfold bytes_view, data. cbn [h_view host_array elems].
  induction buf as [|b buf IH]; [reflexivity|].
  cbn [map flat_map]. rewrite IH. cbn [raw Scalar_int8_t le_bytes app].
  f_equal. apply byte_of_N_mod.
  pose proof (Byte.to_N_bounded b) as Hb.
  rewrite Z.mod_small by lia. rewrite N2Z.id.
  apply N.mod_small. lia.
Qed.

Section ReaderProperties.

Variable compressBound : Z -> Z.
Variable compress2 : Z -> list byte -> Z -> Z * list byte.
Variable uncompress : list byte -> option (list byte).

(** An encoding is read back: the header is [1, rawBytes, rawBytes,
    compressedBytes] and the bytes are what inflating the payload gives. *)
Lemma read_encoded (bytes c : list byte) :
  Z.of_nat (List.length bytes) < 2 ^ 64 ->
  Z.of_nat (List.length c) < 2 ^ 64 ->
  uncompress c = Some bytes ->
  let rawBytes := Z.of_nat (List.length bytes) in
  let compressedBytes := Z.of_nat (List.length c) in
  read_data uncompress
    (base64.encode (header_bytes [1; rawBytes; rawBytes; compressedBytes])
       ++ base64.encode c ++ newline)
  = Some ([1; rawBytes; rawBytes; compressedBytes], bytes).
Proof.
  intros Hraw Hcomp Hinflate rawBytes compressedBytes.
  set (header := header_bytes [1; rawBytes; rawBytes; compressedBytes]).
  assert (H44 : String.length (base64.encode header) = 44%nat)
    by (rewrite encode_length; reflexivity).
  unfold read_data.
  rewrite <- H44 at 1. rewrite take_append, decode_encode.
  unfold header.
  rewrite header_words_of_bytes by (unfold rawBytes, compressedBytes; lia).
  fold header. rewrite <- H44. rewrite !drop_append.
  unfold compressedBytes at 1 2. rewrite Nat2Z.id.
  rewrite <- encode_length, drop_append, take_append.
  rewrite string_eqb_refl, decode_encode, Hinflate.
  replace (List.length header =? 32)%nat with true by reflexivity.
  fold compressedBytes. fold rawBytes.
  rewrite !Z.eqb_refl. reflexivity.
Qed.

(** C2.  The output of the encoder for an array is read back to the bytes of
    the array, the empty buffer included: decoding the header gives
    [1, rawBytes, rawBytes, compressedBytes], and decoding and inflating the
    payload gives the bytes of the host array, provided that inflating
    inverts what the backend did for this array. *)
Theorem encode_then_read {T} `{ScalarLayout T}
  (dual : VizView T) (copy : bool) (c : list byte) (out : stream) :
  let field := h_view (if copy then sync_host dual else dual) in
  let bytes := data field in
  let rawBytes := Z.of_nat (List.length bytes) in
  let compressedBytes := Z.of_nat (List.length c) in
  wf_view field ->
  rawBytes < 2 ^ 64 ->
  compressedBytes < 2 ^ 64 ->
  compress2 (compressBound rawBytes) bytes Z_BEST_SPEED = (Z_OK, c) ->
  uncompress c = Some bytes ->
  exists text,
    write_data compressBound compress2 dual copy out = Ret tt (out ++ text)
    /\ read_data uncompress text
       = Some ([1; rawBytes; rawBytes; compressedBytes], bytes).
Proof.
  intros field bytes rawBytes compressedBytes Hwf Hraw Hcomp Hcall Hinflate.
  destruct (write_data_host_output compressBound compress2 dual copy c out
              Hwf Hraw Hcomp Hcall) as [Hrun _].
  eexists. split; [exact Hrun|].
  now apply read_encoded.
Qed.

End ReaderProperties.

(* ================================================================= *)
(** * The theorems at concrete inputs *)

Ltac in_bounds := unfold in_range, INT_MIN, INT_MAX; simpl; lia.

(** Closed comparisons of integers, by evaluation. *)
Ltac closed_arith :=
  repeat split; vm_compute;
  first [reflexivity | discriminate | intro; discriminate].

(** The extents of a block of degree 2 with 2 x 1 x 1 cells. *)
Lemma block_extents_witness :
  write_vtr_rectilinear_start (sample_block 2) ""
  = Ret tt ("<RectilinearGrid WholeExtent=" ++ q "0 6 0 3 0 3" ++ ">"
              ++ newline)
  /\ write_piece_start (sample_block 2) ""
     = Ret tt ("<Piece Extent=" ++ q "0 6 0 3 0 3" ++ ">" ++ newline).
Proof.
  apply (block_extents (sample_block 2) ""); in_bounds.
Defined.

(** Three [int] values through the encoder with the storing backend. *)
Lemma write_data_output_witness :
  write_data zlib.compressBound zlib.compress2
    (host_array 3 1 [1; 2; 3]) false ""
  = Ret tt
      ("AQAAAAAAAAAMAAAAAAAAAAwAAAAAAAAAFwAAAAAAAAA="
         ++ "eAEBDADz/wEAAAACAAAAAwAAAAA0AAc=" ++ newline).
Proof.
  refine (proj1 (write_data_output zlib.compressBound zlib.compress2
                   (host_array 3 1 [1; 2; 3]) false
                   (zlib.stored (data (h_view (host_array 3 1 [1; 2; 3]))))
                   "" _ _ _ _)).
  - unfold wf_view. simpl. lia.
  - simpl. lia.
  - simpl. lia.
  - reflexivity.
Defined.

(** The empty buffer is read back from its encoding. *)
Lemma encode_then_read_witness :
  exists text,
    write_data zlib.compressBound zlib.compress2 (bytes_view []) true ""
    = Ret tt ("" ++ text)
    /\ read_data zlib.uncompress text = Some ([1; 0; 0; 11], []).
Proof.
  refine (encode_then_read zlib.compressBound zlib.compress2 zlib.uncompress
            (bytes_view []) true (zlib.stored []) "" _ _ _ _ _).
  - unfold wf_view. simpl. lia.
  - simpl. lia.
  - simpl. lia.
  - reflexivity.
  - reflexivity.
Defined.

(** The theorem at three blocks: degree 2 encodes the seven points of the
    formula along x; degree 3 reads outside the table; degree -2 encodes the
    empty array along y, where the block has one cell. *)
Lemma write_coordinate_degree_witness :
  write_coordinate zlib.compressBound zlib.compress2 (sample_block 2) X ""
  = write_array zlib.compressBound zlib.compress2 "Float32" "x" 1 7 1
      (coordinate_points 2 2 d0 d1) ""
  /\ table_entry 2 4 "" = Ret (offsetTable 2 1) ""
  /\ table_entry 3 0 "" = Undef
  /\ table_entry (-1) 0 "" = Undef
  /\ write_coordinate zlib.compressBound zlib.compress2 (sample_block 3) X ""
     = Undef
  /\ write_coordinate zlib.compressBound zlib.compress2 (sample_block (-2))
       Y ""
     = write_array zlib.compressBound zlib.compress2 "Float32" "y" 1 0 1
         (@nil float) "".
Proof.
  destruct (write_coordinate_degree zlib.compressBound zlib.compress2
              (sample_block 2) X "") as (Harray & Hentry & _).
  destruct (write_coordinate_degree zlib.compressBound zlib.compress2
              (sample_block 3) X "") as (_ & Hthree & Houtside & _).
  destruct (write_coordinate_degree zlib.compressBound zlib.compress2
              (sample_block (-1)) X "") as (_ & Hminus & _).
  destruct (write_coordinate_degree zlib.compressBound zlib.compress2
              (sample_block (-2)) Y "") as (_ & _ & _ & Hempty).
  split; [apply Harray; closed_arith|].
  split; [apply (proj1 (Hentry 4 ltac:(lia))); closed_arith|].
  split; [apply (proj2 (Hthree 0 ltac:(lia))); right; closed_arith|].
  split; [apply (proj2 (Hminus 0 ltac:(lia))); left; closed_arith|].
  split; [apply Houtside; [right|]; closed_arith|].
  apply Hempty; closed_arith.
Defined.

(** The claim that a degree outside 0, 1, 2 makes [write_coordinate] raise
    an error fails.  At degree -2 the call along y, where the block has one
    cell, returns and has written the encoding of the empty array: no error
    for a degree outside the table.  At degree 3 the call along x reads
    outside the table and nothing is thrown. *)
Lemma degree_three_raises_nothing :
  write_coordinate zlib.compressBound zlib.compress2 (sample_block (-2)) Y ""
  = Ret tt
      ("<DataArray type=" ++ quote ++ "Float32" ++ quote
       ++ " Name=" ++ quote ++ "y" ++ quote
       ++ " NumberOfComponents=" ++ quote ++ "1" ++ quote
       ++ " format=" ++ quote ++ "binary" ++ quote ++ ">" ++ newline
       ++ "AQAAAAAAAAAAAAAAAAAAAAAAAAAAAAAACwAAAAAAAAA=eAEBAAD//wAAAAE="
       ++ newline ++ "</DataArray>" ++ newline)
  /\ write_coordinate zlib.compressBound zlib.compress2 (sample_block 3) X ""
     = Undef
  /\ ~ (exists e out,
          write_coordinate zlib.compressBound zlib.compress2
            (sample_block 3) X ""
          = Throw e out).
Proof.
  split; [vm_compute; reflexivity|].
  split; [vm_compute; reflexivity|].
  intros (e & out & E). vm_compute in E. discriminate.
Qed.

(** The seven points of the x axis of a block of degree 2 with two cells. *)
Lemma coordinate_array_witness :
  write_coordinate zlib.compressBound zlib.compress2 (sample_block 2) X ""
  = write_array zlib.compressBound zlib.compress2 "Float32" "x" 1 7 1
      (coordinate_points 2 2 d0 d1) ""
  /\ Z.of_nat (List.length (coordinate_points 2 2 d0 d1)) = 7.
Proof.
  destruct (coordinate_array zlib.compressBound zlib.compress2
              (sample_block 2) X "") as (Hrun & Hlen & _);
    [closed_arith | closed_arith | closed_arith | closed_arith |].
  split; [exact Hrun | exact Hlen].
Defined.

(** Point 1 of that axis: the [double] 7/27 and its rounding to binary32. *)
Lemma coordinates_are_single_witness :
  nth_error (coordinate_points 2 2 d0 d1) 1
  = Some (single (S754_finite false 8699297 (-25)))
  /\ coordinate_formula 2 d0 d1 1
     = S754_finite false 4670399613569403 (-54).
Proof.
  destruct (coordinates_are_single zlib.compressBound zlib.compress2
              (sample_block 2) X "") as (_ & Hnth & _);
    [closed_arith | closed_arith | closed_arith | closed_arith |].
  split; [|vm_compute; reflexivity].
  exact (Hnth 1 ltac:(closed_arith)).
Defined.

(** The snapshot of the sample tree: two leaves, sixteen corner rows. *)
Lemma tree_export_3d_witness :
  tree_offsets 8 (sample_leaves sample_tree) = [8; 16]
  /\ tree_connectivity 8 (sample_leaves sample_tree) = iota 16
  /\ Z.of_nat
       (List.length
          (tree_coordinates sample_domain (base sample_tree) (cube d0 d1) 8
             (sample_leaves sample_tree)))
     = 8 * 2 * DIMS.
Proof.
  destruct (tree_export_3d zlib.compressBound zlib.compress2 sample_leaves
              sample_domain store_file "tree" sample_tree (cube d0 d1) no_files)
    as (_ & _ & _ & _ & Hconn & _ & Hcoords);
    [closed_arith | closed_arith |].
  split; [reflexivity|]. split; [exact Hconn | exact Hcoords].
Defined.

(** The second leaf of the sample tree in every array. *)
Lemma tree_arrays_aligned_witness :
  nth_error (tree_depths (sample_leaves sample_tree)) 1 = Some 1
  /\ rows 3 1 1 (tree_ijks (sample_leaves sample_tree)) = [1; 0; 0]
  /\ rows 1 8 8 (tree_connectivity 8 (sample_leaves sample_tree))
     = [8; 9; 10; 11; 12; 13; 14; 15]
  /\ nth_error (tree_offsets 8 (sample_leaves sample_tree)) 1 = Some 16.
Proof.
  destruct (tree_arrays_aligned zlib.compressBound zlib.compress2
              sample_leaves sample_domain store_file "tree" sample_tree
              (cube d0 d1) no_files) as (_ & Hleaf);
    [closed_arith | closed_arith |].
  destruct (Hleaf 1%nat (mk_Node (mk_Point 1 (p3a.mk_vector3 1 0 0)))
              eq_refl) as (Hdepth & Hijk & _ & Hconn & Hoff).
  split; [exact Hdepth|]. split; [exact Hijk|].
  split; [exact Hconn | exact Hoff].
Defined.

(** With a backend that is out of memory nothing is encoded and no
    snapshot is written. *)
Lemma compression_failure_aborts_witness :
  write_data zlib.compressBound zlib.failing_compress2
    (host_array 3 1 [1; 2; 3]) false "before"
  = Throw zlib_error "before"
  /\ write_tree zlib.compressBound zlib.failing_compress2 sample_leaves
       sample_domain store_file "tree" sample_tree (cube d0 d1) no_files
     = Throw zlib_error no_files.
Proof.
  destruct (compression_failure_aborts zlib.compressBound
              zlib.failing_compress2 sample_leaves sample_domain store_file
              (fun _ => "0"))
    as (Hdata & _ & Htree & _).
  split.
  - apply (Hdata int _ (host_array 3 1 [1; 2; 3]) false "before").
    vm_compute. discriminate.
  - apply (Htree "tree" sample_tree (cube d0 d1) no_files);
      [closed_arith | closed_arith |].
    left. vm_compute. discriminate.
Defined.

(* ================================================================= *)
(** * Further properties of the writers *)

(* ----------------------------------------------------------------- *)
(** ** The tree snapshot *)

Section SnapshotProperties.

Variable compressBound : Z -> Z.
Variable compress2 : Z -> list byte -> Z -> Z * list byte.
Variable collect_leaves : Tree -> list Node.
Variable get_block_domain : Point -> Point -> p3a.box3 -> p3a.box3.
Variable write_stream : string -> stream -> M filesystem unit.

(** X1.  The cell types of [num] cells: the code that [vtk_types] holds for the
    dimension, 9 (a quad) for dimension 2 and 12 (a hexahedron) for
    dimension 3, once per cell; a dimension outside 0 .. 3 indexes outside
    the table of four codes. *)
Theorem tree_cell_types (dim num : Z) (s : stream) :
  0 <= num ->
  (0 <= dim <= 3 ->
   write_tree_types compressBound compress2 dim num s
   = write_array compressBound compress2 "Int8" "types" 1 num 1
       (repeat (nth (Z.to_nat dim) vtk_types (int8 0)) (Z.to_nat num)) s)
  /\ nth 2 vtk_types (int8 0) = int8 9
  /\ nth 3 vtk_types (int8 0) = int8 12
  /\ (dim < 0 \/ 3 < dim ->
      write_tree_types compressBound compress2 dim num s = Undef).
Proof.
  intros Hnum. split; [|split; [reflexivity|split; [reflexivity|]]].
  - intros Hdim.
    set (leaves := repeat (mk_Node (mk_Point 0 (p3a.mk_vector3 0 0 0)))
                     (Z.to_nat num)).
    assert (Hlen : Z.of_nat (List.length leaves) = num)
      by (unfold leaves; rewrite repeat_length; lia).
    pose proof (write_tree_types_array compressBound compress2 dim leaves s
                  Hdim) as E.
    unfold tree_types in E. rewrite Hlen in E.
    replace (List.length leaves) with (Z.to_nat num) in E
      by (unfold leaves; now rewrite repeat_length).
    exact E.
  - intros Hdim. unfold write_tree_types. apply bind_undef. unfold index.
    destruct (Z.ltb_spec dim 0); [reflexivity|].
    assert (E : nth_error vtk_types (Z.to_nat dim) = None)
      by (apply nth_error_None; simpl; lia).
    now rewrite E.
Qed.

End SnapshotProperties.

Lemma tree_cell_types_witness :
  write_tree_types zlib.compressBound zlib.compress2 2 3 ""
  = write_array zlib.compressBound zlib.compress2 "Int8" "types" 1 3 1
      [int8 9; int8 9; int8 9] "".
Proof.
  refine (proj1 (tree_cell_types zlib.compressBound zlib.compress2 2 3 "" _)
            _); closed_arith.
Defined.

Section SnapshotOutcomes.

Variable compressBound : Z -> Z.
Variable compress2 : Z -> list byte -> Z -> Z * list byte.
Variable collect_leaves : Tree -> list Node.
Variable get_block_domain : Point -> Point -> p3a.box3 -> p3a.box3.
Variable write_stream : string -> stream -> M filesystem unit.

(** X2.  Every array of a snapshot has as many tuples as the document declares:
    [NumberOfCells] is the number [L] of leaves and the length of the types,
    the offsets, the depths and the positions (three components each);
    [NumberOfPoints] is [L * 2^dim], the length of the connectivity, the
    number of coordinate rows and the last offset. *)
Theorem tree_counts (path : string) (tree : Tree) (domain : p3a.box3)
  (fs : filesystem) :
  let leaves := collect_leaves tree in
  let L := Z.of_nat (List.length leaves) in
  let c := 2 ^ dim tree in
  let types := tree_types (dim tree) leaves in
  let offsets := tree_offsets c leaves in
  let connectivity := tree_connectivity c leaves in
  let coordinates :=
    tree_coordinates get_block_domain (base tree) domain c leaves in
  let depths := tree_depths leaves in
  let ijks := tree_ijks leaves in
  0 <= dim tree <= 3 ->
  (L + 1) * c <= INT_MAX ->
  write_tree compressBound compress2 collect_leaves get_block_domain
    write_stream path tree domain fs
  = with_stream
      (tree_document compressBound compress2 (L * c) L types offsets
         connectivity coordinates depths ijks)
      (fun stream => write_stream (path ++ ".vtu") stream) fs
  /\ Z.of_nat (List.length types) = L
  /\ Z.of_nat (List.length offsets) = L
  /\ Z.of_nat (List.length depths) = L
  /\ Z.of_nat (List.length ijks) = L * DIMS
  /\ Z.of_nat (List.length connectivity) = L * c
  /\ Z.of_nat (List.length coordinates) = L * c * DIMS
  /\ (0 < L -> last offsets 0 = L * c).
Proof.
  intros leaves L c types offsets connectivity coordinates depths ijks
    Hdim Hmax.
  pose proof (corners_of_dim (dim tree) Hdim) as Hc. fold c in Hc.
  split; [now apply write_tree_document|].
  split; [unfold types, tree_types; now rewrite repeat_length|].
  split; [unfold offsets, tree_offsets; rewrite length_map, iota_length;
          fold L; lia|].
  split; [unfold depths, tree_depths; now rewrite length_map|].
  split.
  { unfold ijks, tree_ijks, DIMS.
    rewrite (flat_map_rows_length _ 3) by reflexivity. fold leaves.
    unfold L. lia. }
  split.
  { unfold connectivity, tree_connectivity. rewrite iota_length.
    fold L. nia. }
  split.
  { unfold coordinates, tree_coordinates, DIMS.
    rewrite (flat_map_rows_length _ (Z.to_nat c * 3))
      by (intros y; apply leaf_rows_length; lia).
    fold leaves. unfold L. nia. }
  intros HL. unfold offsets. rewrite last_tree_offsets by exact HL.
  fold L. lia.
Qed.

(** An array whose encoding succeeds is its opening element, the digits of
    the encoding and its closing element. *)
Lemma write_array_encoded {T} `{Scalar T} (type name : string)
  (ncomps n0 n1 : Z) (xs : list T) (s : stream) :
  array_status compressBound compress2 n0 n1 xs = Z_OK ->
  write_array compressBound compress2 type name ncomps n0 n1 xs s
  = Ret tt
      (s ++ array_text type name ncomps
              (encoded_text compressBound compress2 (mk_View n0 n1 xs))).
Proof.
  intros Hok. unfold write_array.
  rewrite (bind_ret _ _ _ _ _ (write_data_start_text type name ncomps s)).
  unfold write_data, encoded_text.
  unfold array_status, backend_call in *. cbn [h_view host_array].
  destruct (compress2 _ _ _) as [r c]. cbn [fst snd] in *. subst r.
  rewrite Z.eqb_refl. cbn [negb].
  unfold write_data_end, array_text, bind, put.
  f_equal. now rewrite !append_assoc.
Qed.

(** The document of a snapshot whose six arrays are encoded. *)
Lemma tree_document_text (npoints nleaves : Z) (types : list int8_t)
  (offsets connectivity : list int) (coordinates : list double)
  (depths ijks : list int) (s : stream) :
  array_status compressBound compress2 nleaves 1 types = Z_OK ->
  array_status compressBound compress2 nleaves 1 offsets = Z_OK ->
  array_status compressBound compress2 npoints 1 connectivity = Z_OK ->
  array_status compressBound compress2 npoints DIMS coordinates = Z_OK ->
  array_status compressBound compress2 nleaves 1 depths = Z_OK ->
  array_status compressBound compress2 nleaves DIMS ijks = Z_OK ->
  tree_document compressBound compress2 npoints nleaves types offsets
    connectivity coordinates depths ijks s
  = Ret tt
      (s ++ tree_text npoints nleaves
         (encoded_text compressBound compress2 (mk_View nleaves 1 types))
         (encoded_text compressBound compress2 (mk_View nleaves 1 offsets))
         (encoded_text compressBound compress2
            (mk_View npoints 1 connectivity))
         (encoded_text compressBound compress2
            (mk_View npoints DIMS coordinates))
         (encoded_text compressBound compress2 (mk_View nleaves 1 depths))
         (encoded_text compressBound compress2 (mk_View nleaves DIMS ijks))).
Proof.
  intros H1 H2 H3 H4 H5 H6. unfold tree_document.
  assert (E0 : write_vtu_header s = Ret tt (s ++ vtu_header_text)).
  { unfold write_vtu_header, vtu_header_text, bind, put.
    now rewrite !append_assoc. }
  rewrite (bind_ret _ _ _ _ _ E0).
  repeat match goal with
         | |- bind (put ?t) ?k ?s0 = _ =>
             change (bind (put t) k s0) with (k tt (s0 ++ t)); cbv beta
         | |- bind (write_array _ _ ?ty ?nm ?nc ?n0 ?n1 ?xs) _ ?s0 = _ =>
             match goal with
             | Hok : array_status _ _ n0 n1 xs = Z_OK |- _ =>
                 rewrite (bind_ret _ _ _ _ _
                            (write_array_encoded ty nm nc n0 n1 xs s0 Hok))
             end
         end.
  unfold put, tree_text. f_equal. now rewrite !append_assoc.
Qed.

(** X3.  When the six arrays of a snapshot are encoded, [write_tree] ends in
    one call of [write_stream]: the path is the argument followed by
    [.vtu], and the contents are the whole document, from the header to the
    closing element, around the encodings of the arrays of the leaves in the
    order types, offsets, connectivity, coordinates, depth, ijk.  Whatever
    [write_stream] does with them, returning or raising, is the outcome of
    [write_tree]. *)
Theorem write_tree_stores_document (path : string) (tree : Tree)
  (domain : p3a.box3) (fs : filesystem) :
  let leaves := collect_leaves tree in
  let L := Z.of_nat (List.length leaves) in
  let c := 2 ^ dim tree in
  let types := tree_types (dim tree) leaves in
  let offsets := tree_offsets c leaves in
  let connectivity := tree_connectivity c leaves in
  let coordinates :=
    tree_coordinates get_block_domain (base tree) domain c leaves in
  let depths := tree_depths leaves in
  let ijks := tree_ijks leaves in
  0 <= dim tree <= 3 ->
  (L + 1) * c <= INT_MAX ->
  array_status compressBound compress2 L 1 types = Z_OK ->
  array_status compressBound compress2 L 1 offsets = Z_OK ->
  array_status compressBound compress2 (L * c) 1 connectivity = Z_OK ->
  array_status compressBound compress2 (L * c) DIMS coordinates = Z_OK ->
  array_status compressBound compress2 L 1 depths = Z_OK ->
  array_status compressBound compress2 L DIMS ijks = Z_OK ->
  write_tree compressBound compress2 collect_leaves get_block_domain
    write_stream path tree domain fs
  = write_stream (path ++ ".vtu")
      (tree_text (L * c) L
         (encoded_text compressBound compress2 (mk_View L 1 types))
         (encoded_text compressBound compress2 (mk_View L 1 offsets))
         (encoded_text compressBound compress2 (mk_View (L * c) 1 connectivity))
         (encoded_text compressBound compress2
            (mk_View (L * c) DIMS coordinates))
         (encoded_text compressBound compress2 (mk_View L 1 depths))
         (encoded_text compressBound compress2 (mk_View L DIMS ijks)))
      fs.
Proof.
  intros leaves L c types offsets connectivity coordinates depths ijks
    Hdim Hmax H1 H2 H3 H4 H5 H6.
  rewrite (write_tree_document compressBound compress2 collect_leaves
             get_block_domain write_stream path tree domain fs Hdim Hmax).
  fold leaves. fold L. fold c.
  subst types offsets connectivity coordinates depths ijks.
  unfold with_stream.
  now rewrite (tree_document_text (L * c) L _ _ _ _ _ _ "" H1 H2 H3 H4 H5 H6).
Qed.

End SnapshotOutcomes.

(** The snapshot of the sample tree, stored under [tree.vtu]. *)
Lemma write_tree_stores_document_witness :
  let leaves := sample_leaves sample_tree in
  let encoded {T} `{Scalar T} (n0 n1 : Z) (xs : list T) :=
    encoded_text zlib.compressBound zlib.compress2 (mk_View n0 n1 xs) in
  write_tree zlib.compressBound zlib.compress2 sample_leaves sample_domain
    store_file "tree" sample_tree (cube d0 d1) no_files
  = Ret tt
      (with_file "tree.vtu"
         (tree_text 16 2
            (encoded 2 1 (tree_types 3 leaves))
            (encoded 2 1 (tree_offsets 8 leaves))
            (encoded 16 1 (tree_connectivity 8 leaves))
            (encoded 16 3
               (tree_coordinates sample_domain (base sample_tree)
                  (cube d0 d1) 8 leaves))
            (encoded 2 1 (tree_depths leaves))
            (encoded 2 3 (tree_ijks leaves)))
         no_files).
Proof.
  intros leaves encoded.
  apply (write_tree_stores_document zlib.compressBound zlib.compress2
           sample_leaves sample_domain store_file "tree" sample_tree
           (cube d0 d1) no_files); closed_arith.
Defined.

Lemma tree_counts_witness :
  Z.of_nat (List.length (tree_types 3 (sample_leaves sample_tree))) = 2
  /\ Z.of_nat (List.length (tree_connectivity 8 (sample_leaves sample_tree)))
     = 16
  /\ last (tree_offsets 8 (sample_leaves sample_tree)) 0 = 16.
Proof.
  destruct (tree_counts zlib.compressBound zlib.compress2 sample_leaves
              sample_domain store_file "tree" sample_tree (cube d0 d1)
              no_files)
    as (_ & Htypes & _ & _ & _ & Hconn & _ & Hlast);
    [closed_arith | closed_arith |].
  split; [exact Htypes|]. split; [exact Hconn|].
  apply Hlast. closed_arith.
Defined.

(* ----------------------------------------------------------------- *)
(** ** The manifest *)

(** The [index] attributes found after a piece [pre] without quotes, in the
    lines of the blocks [l] followed by the end of the manifest. *)
Lemma index_attributes_lines (prefix : string) (l : list Z) (pre : string) :
  quote_free prefix = true ->
  quote_free pre = true ->
  attribute_values "index"
    (fields (pre ++ concat_all
                      (map (fun i => dataset_line i (block_file prefix i)) l)
               ++ vtm_end_text))
  = map to_string l.
Proof.
  intros Hprefix. revert pre.
  induction l as [|i l IH]; intros pre Hpre.
  - simpl concat_all. rewrite fields_whole; [reflexivity|].
    apply quote_free_app; [exact Hpre | reflexivity].
  - cbn [map concat_all fold_right]. fold (concat_all
      (map (fun i => dataset_line i (block_file prefix i)) l)).
    unfold dataset_line at 1. unfold q.
    repeat rewrite append_assoc.
    rewrite <- (append_assoc pre "<DataSet index=").
    rewrite fields_cut_quote
      by (apply quote_free_app; [exact Hpre | reflexivity]).
    rewrite fields_cut_quote by apply quote_free_to_string.
    rewrite fields_cut_quote by reflexivity.
    rewrite fields_cut_quote.
    + cbn [attribute_values].
      rewrite ends_with_app by (simpl; lia).
      replace (ends_with (" " ++ "index" ++ "=") "<DataSet index=") with true
        by reflexivity.
      replace (ends_with (" " ++ "index" ++ "=") " file=") with false
        by reflexivity.
      f_equal.
      rewrite <- (IH ("/>" ++ newline)) by reflexivity.
      now rewrite !append_assoc.
    + unfold block_file.
      apply quote_free_app; [exact Hprefix|].
      apply quote_free_app; [apply quote_free_to_string | reflexivity].
Qed.

(** X5.  In a manifest the [index] attributes are the decimal numbers
    [0 .. nblocks-1] in this order, so that the line with index [i] is the
    one that names file [i]: the two lists of attributes have the same
    length, and a manifest for no block (or a negative count) has neither. *)
Theorem manifest_indices (prefix : string) (nblocks : Z) (out : stream) :
  quote_free prefix = true ->
  exists text,
    write_vtm prefix nblocks out = Ret tt (out ++ text)
    /\ attribute_values "index" (fields text)
       = map to_string (iota nblocks)
    /\ List.length (attribute_values "index" (fields text))
       = List.length (file_attributes text)
    /\ (nblocks <= 0 -> text = vtm_header_text ++ vtm_end_text).
Proof.
  intros Hprefix.
  destruct (manifest_references_lines prefix nblocks out Hprefix)
    as (Hrun & Hfiles).
  eexists. split; [exact Hrun|].
  assert (Hidx :
            attribute_values "index"
              (fields
                 (vtm_header_text
                    ++ concat_all
                         (map (fun i => dataset_line i (block_file prefix i))
                            (iota nblocks))
                    ++ vtm_end_text))
            = map to_string (iota nblocks)).
  { unfold vtm_header_text, q.
    repeat rewrite append_assoc.
    rewrite fields_cut_quote by reflexivity.
    rewrite fields_cut_quote by reflexivity.
    rewrite fields_cut_quote by reflexivity.
    rewrite fields_cut_quote by reflexivity.
    cbn [attribute_values].
    replace (ends_with (" " ++ "index" ++ "=") "<VTKFile type=") with false
      by reflexivity.
    replace (ends_with (" " ++ "index" ++ "=") " version=") with false
      by reflexivity.
    rewrite <- (index_attributes_lines prefix (iota nblocks)
                  (">" ++ newline ++ "<vtkMultiBlockDataSet>" ++ newline))
      by (exact Hprefix || reflexivity).
    now rewrite !append_assoc. }
  split; [exact Hidx|]. split.
  - rewrite Hidx, Hfiles. now rewrite !length_map.
  - intros Hn. unfold iota. replace (Z.to_nat nblocks) with 0%nat by lia.
    reflexivity.
Qed.

Lemma manifest_indices_witness :
  exists text,
    write_vtm "out_" 3 "" = Ret tt ("" ++ text)
    /\ attribute_values "index" (fields text) = ["0"; "1"; "2"].
Proof.
  destruct (manifest_indices "out_" 3 "" eq_refl) as (text & Hrun & Hidx & _).
  exists text. split; [exact Hrun | exact Hidx].
Defined.

(* ----------------------------------------------------------------- *)
(** ** The block file *)



Section BlockFileProperties.

Variable compressBound : Z -> Z.
Variable compress2 : Z -> list byte -> Z -> Z * list byte.
Variable scientific12 : double -> string.






End BlockFileProperties.


Section GridProperties.

Variable compressBound : Z -> Z.
Variable compress2 : Z -> list byte -> Z -> Z * list byte.

(** X10.  The nodes that the table does not move lie on the uniform grid: for the
    degrees 0 and 1, and at the cell boundaries of degree 2 (the indices
    that are multiples of [p+1]), point [i] is [o + i*dx] rounded to
    [float], when [dx] is finite and the sum is finite and not zero; and the
    first point is the lower corner [o] (finite and not zero, or [+0]). *)
Theorem coordinates_on_grid (block : Block) (axis : Z) (s : stream) :
  let p := p (basis block) in
  let n := component (p3a.extents (cell_grid block)) axis in
  let o := component (p3a.lower (domain block)) axis in
  let spacing := component (dx block) axis in
  let dx := ddiv spacing (double_of_int (p + 1)) in
  let points := coordinate_points p n o spacing in
  0 <= p <= 2 -> 0 <= axis < 3 -> 0 <= n ->
  (p + 1) * n + 1 <= INT_MAX ->
  is_finite dx = true ->
  write_coordinate compressBound compress2 block axis s
  = write_array compressBound compress2 "Float32"
      (nth (Z.to_nat axis) axis_name "") 1 ((p + 1) * n + 1) 1 points s
  /\ (forall i, 0 <= i < (p + 1) * n + 1 ->
                p <= 1 \/ i mod (p + 1) = 0 ->
                is_nonzero_finite (dadd o (dmul (double_of_int i) dx)) = true ->
                nth_error points (Z.to_nat i)
                = Some (float_of_double
                          (dadd o (dmul (double_of_int i) dx))))
  /\ (is_nonzero_finite o = true \/ o = S754_zero false ->
      nth_error points 0 = Some (float_of_double o)).
Proof.
  intros p0 n o spacing dx0 points Hp Haxis Hn Hmax Hdx.
  split; [now apply write_coordinate_array|].
  assert (Hzero : exists sg, dmul d0 dx0 = S754_zero sg).
  { unfold dmul, d0. destruct dx0; try discriminate; simpl; eauto. }
  destruct Hzero as [sg Hzero].
  split.
  - intros i Hi Hgrid Hsum.
    unfold points. rewrite coordinate_points_nth by exact Hi.
    unfold coordinate_formula. fold dx0.
    replace (offsetTable p0 (i mod (p0 + 1))) with d0.
    + rewrite Hzero.
      destruct (dadd o (dmul (double_of_int i) dx0)); try discriminate.
      reflexivity.
    + unfold offsetTable.
      destruct (Z.eqb_spec p0 2) as [E|E]; [|reflexivity].
      destruct Hgrid as [Hle|Hmod]; [lia|]. now rewrite Hmod.
  - intros Ho.
    replace 0%nat with (Z.to_nat 0) by reflexivity.
    unfold points. rewrite coordinate_points_nth by nia.
    unfold coordinate_formula. fold dx0.
    rewrite Z.mod_0_l by lia.
    replace (offsetTable p0 0) with d0
      by (unfold offsetTable; now rewrite !andb_false_r).
    rewrite Hzero.
    change (double_of_int 0) with d0. rewrite Hzero.
    destruct Ho as [Ho|Ho].
    + destruct o; try discriminate. reflexivity.
    + rewrite Ho. unfold dadd. simpl. now destruct sg.
Qed.

End GridProperties.

(** The x axis of the sample block: its cell boundaries 0, 1 and 2. *)
Lemma coordinates_on_grid_witness :
  nth_error (coordinate_points 2 2 d0 d1) 0 = Some (single (S754_zero false))
  /\ nth_error (coordinate_points 2 2 d0 d1) 3
     = Some (single (S754_finite false 8388608 (-23)))
  /\ nth_error (coordinate_points 2 2 d0 d1) 6
     = Some (single (S754_finite false 8388608 (-22))).
Proof.
  destruct (coordinates_on_grid zlib.compressBound zlib.compress2
              (sample_block 2) X "") as (_ & Hgrid & Hfirst);
    [closed_arith | closed_arith | closed_arith | closed_arith
    | reflexivity |].
  split; [apply Hfirst; right; reflexivity|].
  split.
  - apply (Hgrid 3); [closed_arith | right; reflexivity | reflexivity].
  - apply (Hgrid 6); [closed_arith | right; reflexivity | reflexivity].
Defined.
